(** * i2cpwm_controller: a shallow embedding of the PCA9685 PWM board controller

    The development follows [src/i2cpwm_controller.cpp]:
    - C [int] values are integers in [Z]; [/] on [int] is truncating
      division ([Z.quot]), [&], [|], [>>] are [Z.land], [Z.lor], [Z.shiftr].
      Signed overflow is undefined in C and lies outside the model; the lemma
      [pos_fits_int] shows that the one product chain
      of the code stays inside 32 bits for channel fields of 16-bit size.
    - [double]/[float] values are exact rationals in [Q]; the few floating
      point expressions of the code are evaluated on values for which the
      rational result and the rounded result coincide (see [_smoothing] and
      [prescale]).
    - the global variables of the file are the fields of [state]; every
      function is a computation in the monad [M], which threads the state,
      records the bus traffic and the ROS log in [trace], and stops with
      [Undefined] where the C program would read outside an array or read a
      local that was never written.
    - the kernel calls ([ioctl], [i2c_smbus_*]) return what the environment
      decides: [world] holds the result of the n-th call. *)

From Stdlib Require Import ZArith QArith Qround String Ascii Lia.
From stdpp Require Import base list list_numbers.

Open Scope Z_scope.

(** ** Data model *)

(** [typedef struct _servo_config] *)
Record servo_config := mk_servo_config {
  center : Z;
  range : Z;
  direction : Z;
  mode_pos : Z
}.

(** [typedef struct _drive_mode] *)
Record drive_mode := mk_drive_mode {
  mode : Z;
  scale : Q
}.

(** [enum drive_modes] *)
Definition MODE_UNDEFINED : Z := 0.
Definition MODE_ACKERMAN : Z := 1.
Definition MODE_DIFFERENTIAL : Z := 2.
Definition MODE_MECANUM : Z := 3.
Definition MODE_INVALID : Z := 4.

(** [enum drive_mode_positions] *)
Definition POSITION_UNDEFINED : Z := 0.
Definition POSITION_LEFTFRONT : Z := 1.
Definition POSITION_RIGHTFRONT : Z := 2.
Definition POSITION_LEFTREAR : Z := 3.
Definition POSITION_RIGHTREAR : Z := 4.
Definition POSITION_INVALID : Z := 5.

Definition _BASE_ADDR : Z := 64.

(** [enum pwm_regs] *)
Definition __MODE1 : Z := 0.
Definition __MODE2 : Z := 1.
Definition __PRESCALE : Z := 254.
Definition __CHANNEL_ON_L : Z := 6.
Definition __CHANNEL_ON_H : Z := 7.
Definition __CHANNEL_OFF_L : Z := 8.
Definition __CHANNEL_OFF_H : Z := 9.
Definition __ALL_CHANNELS_ON_L : Z := 250.
Definition __ALL_CHANNELS_ON_H : Z := 251.
Definition __ALL_CHANNELS_OFF_L : Z := 252.
Definition __ALL_CHANNELS_OFF_H : Z := 253.
Definition __RESTART : Z := 128.
Definition __SLEEP : Z := 16.
Definition __ALLCALL : Z := 1.
Definition __INVRT : Z := 16.
Definition __OUTDRV : Z := 4.

(** The messages of the package, as the handlers read them (the fields are
    copied into [int] locals on entry). *)
Module Servo.
Record t := mk { servo : Z; value : Z }.
End Servo.

Module ServoConfig.
Record t := mk { servo : Z; center : Z; range : Z; direction : Z }.
End ServoConfig.

Module DriveMode.
Record Request := mk { mode : string; scale : Q; servos : list Servo.t }.
End DriveMode.

Module geometry_msgs.
Record Vector3 := mkVector3 { x : Q; y : Q; z : Q }.
Record Twist := mkTwist { linear : Vector3; angular : Vector3 }.
End geometry_msgs.

(** ** Log and bus events *)

(** One constructor per [ROS_ERROR] format string of the file. *)
Inductive ros_error :=
| Invalid_active_board (board : Z)
| Invalid_board_number (board : Z)
| Invalid_servo_number (servo : Z)
| Invalid_proportion_value (value : Z)
| Missing_servo_configuration (servo : Z)
| Invalid_computed_position (servo pos : Z)
| Invalid_PWM_value (value : Z)
| Invalid_PWM_frequency (freq : Z)
| Invalid_center_value (center : Z)
| Invalid_range_value (range : Z)
| Invalid_range_center_combination (center half_range : Z)
| Invalid_drive_mode (name : string)
| Invalid_scale (scale : Q)
| Invalid_drive_mode_position (position : Z)
| Drive_mode_not_set
| Unrecognized_drive_mode (mode : Z)
| Register_write_failed (reg : Z).

(** One constructor per [ROS_INFO] format string of the file (the first
    [ROS_INFO] of [servos_drive], which echoes the message, is left out, and
    so is every [ROS_DEBUG]). *)
Inductive ros_info :=
| Setting_PWM_frequency (freq : Z)
| Servo_absolute (servo value : Z)
| Servo_proportional (servo pos : Z)
| Ackerman_speed (speed : option Z)
| Differential_speed (left right : option Z)
| Mecanum_speed (leftfront rightfront leftrear rightrear : option Z).

Inductive event :=
| ROS_ERROR (e : ros_error)
| ROS_FATAL (addr : Z)
| ROS_INFO (i : ros_info)
| ioctl_I2C_SLAVE (addr res : Z)
| i2c_write (reg value res : Z)
| i2c_read (reg res : Z)
| nanosleep (sec nsec : Z).

(** ** Global state *)

Record state := mk_state {
  _servo_configs : list (list servo_config);  (* [62][16] *)
  _pwm_boards : list Z;                        (* [62] *)
  _controller_io_handle : Z;
  _active_board : Z;
  _pwm_frequency : Z;
  _active_drive : drive_mode;
  world : nat -> Z;      (* result of the n-th kernel call *)
  clock : nat;           (* number of kernel calls made so far *)
  trace : list event     (* newest event first *)
}.

Definition set_servo_configs (v : list (list servo_config)) (s : state) : state :=
  mk_state v (_pwm_boards s) (_controller_io_handle s) (_active_board s)
           (_pwm_frequency s) (_active_drive s) (world s) (clock s) (trace s).

Definition set_pwm_boards (v : list Z) (s : state) : state :=
  mk_state (_servo_configs s) v (_controller_io_handle s) (_active_board s)
           (_pwm_frequency s) (_active_drive s) (world s) (clock s) (trace s).

Definition set_active_board (v : Z) (s : state) : state :=
  mk_state (_servo_configs s) (_pwm_boards s) (_controller_io_handle s) v
           (_pwm_frequency s) (_active_drive s) (world s) (clock s) (trace s).

Definition set_pwm_frequency_var (v : Z) (s : state) : state :=
  mk_state (_servo_configs s) (_pwm_boards s) (_controller_io_handle s)
           (_active_board s) v (_active_drive s) (world s) (clock s) (trace s).

Definition set_active_drive (v : drive_mode) (s : state) : state :=
  mk_state (_servo_configs s) (_pwm_boards s) (_controller_io_handle s)
           (_active_board s) (_pwm_frequency s) v (world s) (clock s) (trace s).

Definition tick (s : state) : state :=
  mk_state (_servo_configs s) (_pwm_boards s) (_controller_io_handle s)
           (_active_board s) (_pwm_frequency s) (_active_drive s)
           (world s) (S (clock s)) (trace s).

Definition emit (e : event) (s : state) : state :=
  mk_state (_servo_configs s) (_pwm_boards s) (_controller_io_handle s)
           (_active_board s) (_pwm_frequency s) (_active_drive s)
           (world s) (clock s) (e :: trace s).

(** ** The monad of the handlers *)

Inductive undefined_behaviour :=
| Out_of_bounds (array : string) (index : Z)
| Uninitialised (variable : string) (index : Z).

Inductive outcome (A : Type) :=
| Ret (a : A) (s : state)
| Undefined (u : undefined_behaviour) (s : state).
Arguments Ret {A} a s.
Arguments Undefined {A} u s.

Definition M (A : Type) : Type := state -> outcome A.

Definition ret {A} (a : A) : M A := fun s => Ret a s.

Definition bind {A B} (m : M A) (k : A -> M B) : M B :=
  fun s => match m s with
           | Ret a s' => k a s'
           | Undefined u s' => Undefined u s'
           end.

Declare Scope m_scope.
Delimit Scope m_scope with M.
Notation "x <- m ;; k" := (bind m (fun x => k))
  (at level 100, m at next level, right associativity) : m_scope.
Notation "m ;; k" := (bind m (fun _ => k))
  (at level 100, right associativity) : m_scope.
Open Scope m_scope.

Definition gets {A} (f : state -> A) : M A := fun s => Ret (f s) s.
Definition modify (f : state -> state) : M unit := fun s => Ret tt (f s).
Definition undefined {A} (u : undefined_behaviour) : M A := fun s => Undefined u s.
Definition log (e : event) : M unit := modify (emit e).

(** [a[i]] on an array held as a list: a read outside the array is undefined. *)
Definition index {A} (name : string) (a : list A) (i : Z) : M A :=
  if i <? 0 then undefined (Out_of_bounds name i)
  else match a !! Z.to_nat i with
       | Some v => ret v
       | None => undefined (Out_of_bounds name i)
       end.

(** A read of a local array cell that may not have been written yet. *)
Definition initialised (name : string) (a : list (option Z)) (i : Z) : M Z :=
  match a !! Z.to_nat i with
  | Some (Some v) => ret v
  | _ => undefined (Uninitialised name i)
  end.

Fixpoint for_each {A} (l : list A) (body : A -> M unit) : M unit :=
  match l with
  | [] => ret tt
  | a :: l' => body a;; for_each l' body
  end.

(** ** Kernel interface *)

Definition u8 (v : Z) : Z := Z.land v 255.

Definition kernel_call : M Z :=
  fun s => Ret (world s (clock s)) (tick s).

Definition ioctl_slave (addr : Z) : M Z :=
  r <- kernel_call;; log (ioctl_I2C_SLAVE addr r);; ret r.

(** [i2c_smbus_write_byte_data (handle, command, value)]: both arguments are
    [__u8]. *)
Definition i2c_smbus_write_byte_data (reg value : Z) : M Z :=
  r <- kernel_call;; log (i2c_write (u8 reg) (u8 value) r);; ret r.

Definition i2c_smbus_read_byte_data (reg : Z) : M Z :=
  r <- kernel_call;; log (i2c_read (u8 reg) r);; ret r.

(** [if (0 > i2c_smbus_write_byte_data (...)) ROS_ERROR (...)] *)
Definition write_or_report (reg value : Z) : M unit :=
  r <- i2c_smbus_write_byte_data reg value;;
  if 0 >? r then log (ROS_ERROR (Register_write_failed (u8 reg))) else ret tt.

(** ** Local private methods *)

Definition _abs (v1 : Z) : Z :=
  if v1 <? 0 then 0 - v1 else v1.

Definition _min (v1 v2 : Z) : Z :=
  if v1 >? v2 then v2 else v1.

Definition _max (v1 v2 : Z) : Z :=
  if v1 <? v2 then v2 else v1.

Definition _absmax (v1 v2 : Z) : Z :=
  let a1 := _abs v1 in
  let a2 := _abs v2 in
  if a1 <? a2 then v2 else v1.

(** Conversion of a [double] to [int]: truncation towards zero (the value is
    taken to fit an [int]). *)
Definition double_to_int (d : Q) : Z := Z.quot (Qnum d) (Zpos (Qden d)).

(** [cos (_PI * k)] for an [int] k.  The argument of [cos] in [_smoothing] is
    [_PI] times the quotient of two [int]s, hence [_PI] times an integer: the
    result is 1.0 for an even k (exactly so at k = 0) and -1.0 for an odd k
    (the cosine of the double nearest to pi differs from -1 by less than
    1e-32 and rounds to -1.0). *)
Definition cos_PI_times (k : Z) : Q :=
  if Z.even k then 1%Q else (-1)%Q.

(** [return ((cos(_PI*((1000 - speed) / 1000)) + 1) / 2) * 1000;]
    [(1000 - speed) / 1000] divides two [int]s. *)
Definition _smoothing (speed : Z) : Z :=
  double_to_int (((cos_PI_times ((1000 - speed) ÷ 1000) + 1) / 2) * 1000)%Q.

(** [static void _set_pwm_interval_all (int start, int end)] *)
Definition _set_pwm_interval_all (start end_ : Z) : M unit :=
  active <- gets _active_board;;
  if (active <? 1) || (active >? 62) then
    log (ROS_ERROR (Invalid_active_board active))
  else
    write_or_report __ALL_CHANNELS_ON_L (Z.land start 255);;
    write_or_report __ALL_CHANNELS_ON_H (Z.shiftr start 8);;
    write_or_report __ALL_CHANNELS_OFF_L (Z.land end_ 255);;
    write_or_report __ALL_CHANNELS_OFF_H (Z.shiftr end_ 8).

(** [static void _set_pwm_interval (int servo, int start, int end)] *)
Definition _set_pwm_interval (servo start end_ : Z) : M unit :=
  active <- gets _active_board;;
  if (active <? 1) || (active >? 62) then
    log (ROS_ERROR (Invalid_active_board active))
  else if (servo <? 1) || (servo >? 16) then
    log (ROS_ERROR (Invalid_servo_number servo))
  else
    let channel := servo - 1 in
    write_or_report (__CHANNEL_ON_L + 4 * channel) (Z.land start 255);;
    write_or_report (__CHANNEL_ON_H + 4 * channel) (Z.shiftr start 8);;
    write_or_report (__CHANNEL_OFF_L + 4 * channel) (Z.land end_ 255);;
    write_or_report (__CHANNEL_OFF_H + 4 * channel) (Z.shiftr end_ 8).

(** [&(_servo_configs[board][channel])], read. *)
Definition servo_config_at (board channel : Z) : M servo_config :=
  configs <- gets _servo_configs;;
  row <- index "_servo_configs" configs board;;
  index "_servo_configs[]" row channel.

(** Assignment to fields of [_servo_configs[board][channel]]. *)
Definition update_servo_config (board channel : Z)
    (f : servo_config -> servo_config) : M unit :=
  configs <- gets _servo_configs;;
  row <- index "_servo_configs" configs board;;
  cfg <- index "_servo_configs[]" row channel;;
  modify (set_servo_configs
            (<[Z.to_nat board := <[Z.to_nat channel := f cfg]> row]> configs)).

(** [int pos = (configp->direction * (((configp->range / 2) * value) / 1000))
              + configp->center;] *)
Definition pos (configp : servo_config) (value : Z) : Z :=
  (direction configp * (((range configp ÷ 2) * value) ÷ 1000)) + center configp.

(** [static void _set_pwm_interval_proportional (int servo, int value)] *)
Definition _set_pwm_interval_proportional (servo value : Z) : M unit :=
  if (servo <? 1) && (servo >? 16) then
    log (ROS_ERROR (Invalid_servo_number servo))
  else if (value <? -1000) || (value >? 1000) then
    log (ROS_ERROR (Invalid_proportion_value value))
  else
    active <- gets _active_board;;
    configp <- servo_config_at (active - 1) (servo - 1);;
    if (center configp <? 0) || (range configp <? 0) then
      log (ROS_ERROR (Missing_servo_configuration servo))
    else
      let pos := pos configp value in
      if (pos <? 0) || (pos >? 4096) then
        log (ROS_ERROR (Invalid_computed_position servo pos))
      else
        _set_pwm_interval servo 0 pos;;
        log (ROS_INFO (Servo_proportional servo pos)).

(** [prescale = floor(prescaleval + 0.5)] with
    [prescaleval = 25000000.0 / 4096.0 / (float)freq - 1.0].
    The exact quotient is never closer than 1/(64 freq) to a half-integer,
    more than the single-precision rounding error for the frequencies the
    callers pass (12..1024), so the exact floor is the computed one. *)
Definition prescale (freq : Z) : Z :=
  Qfloor (25000000 / 4096 / inject_Z freq - 1 + (1 # 2))%Q.

(** [static void _set_pwm_frequency (int freq)].  [oldmode] and [newmode] are
    [char]s; only their low eight bits reach the bus, which [u8] in
    [i2c_smbus_write_byte_data] takes from the value read. *)
Definition _set_pwm_frequency (freq : Z) : M unit :=
  modify (set_pwm_frequency_var freq);;
  let prescale := prescale freq in
  log (ROS_INFO (Setting_PWM_frequency freq));;
  log (nanosleep 1 0);;
  oldmode <- i2c_smbus_read_byte_data __MODE1;;
  let newmode := Z.lor (Z.land oldmode 127) 16 in
  write_or_report __MODE1 newmode;;
  write_or_report __PRESCALE prescale;;
  write_or_report __MODE1 oldmode;;
  log (nanosleep 0 5000000);;
  write_or_report __MODE1 (Z.lor oldmode 128).

(** [static void _set_active_board (int board)] *)
Definition _set_active_board (board : Z) : M unit :=
  if (board <? 1) || (board >? 62) then
    log (ROS_ERROR (Invalid_board_number board))
  else
    active <- gets _active_board;;
    if negb (active =? board) then
      modify (set_active_board board);;
      let board := board - 1 in
      r <- ioctl_slave (_BASE_ADDR + board);;
      if 0 >? r then
        log (ROS_FATAL (_BASE_ADDR + board))
      else
        boards <- gets _pwm_boards;;
        seen <- index "_pwm_boards" boards board;;
        if seen <? 0 then
          modify (set_pwm_boards (<[Z.to_nat board := 1]> boards));;
          write_or_report __MODE2 __OUTDRV;;
          write_or_report __MODE1 __ALLCALL;;
          log (nanosleep 0 5000000);;
          mode1res <- i2c_smbus_read_byte_data __MODE1;;
          let mode1res := Z.land mode1res (Z.lnot __SLEEP) in
          write_or_report __MODE1 mode1res;;
          log (nanosleep 0 5000000);;
          _set_pwm_interval_all 0 0
        else ret tt
    else ret tt.

(** The globals as [_init] and their initialisers set them: every channel
    unconfigured, no board seen, no active board, no drive mode; the bus
    handle, which [open] returns, is taken to be 0.  (The loops of [_init]
    count to 64 and so also write two rows past each array; the model keeps
    the 62 rows the arrays have.) *)
Definition unconfigured : servo_config := mk_servo_config (-1) (-1) 1 (-1).

Definition initial_state (world : nat -> Z) : state :=
  mk_state (replicate 62 (replicate 16 unconfigured))
           (replicate 62 (-1))
           0 (-1) 50
           (mk_drive_mode MODE_UNDEFINED 1)
           world 0%nat [].

(** ** Topics *)

(** [void servos_absolute (const i2cpwm_board::ServoArray::ConstPtr& msg)] *)
Definition servos_absolute (servos : list Servo.t) : M unit :=
  for_each servos (fun sp =>
    let servo := Servo.servo sp in
    let value := Servo.value sp in
    if (servo <? 1) && (servo >? 16) then
      log (ROS_ERROR (Invalid_servo_number servo))
    else if (value <? 0) || (value >? 4096) then
      log (ROS_ERROR (Invalid_PWM_value value))
    else
      _set_pwm_interval servo 0 value;;
      log (ROS_INFO (Servo_absolute servo value))).

(** [void servos_proportional (const i2cpwm_board::ServoArray::ConstPtr& msg)] *)
Definition servos_proportional (servos : list Servo.t) : M unit :=
  for_each servos (fun sp =>
    let servo := Servo.servo sp in
    let value := Servo.value sp in
    _set_pwm_interval_proportional servo value).

(** [int speed[4];] before any assignment. *)
Definition speed_uninitialised : list (option Z) := replicate 4 None.

(** The value of [speed[i]] as an expression. *)
Definition speed_at (speed : list (option Z)) (i : nat) : option Z :=
  default None (speed !! i).

(** [(msg->linear.x > 0) ? 1 : -1] *)
Definition dir_of (d : Q) : Z :=
  if 0 <? Qnum d then 1 else -1.

(** The [switch (_active_drive.mode)] of [servos_drive], on the locals it
    reads; it leaves the array [speed] and logs one line. *)
Definition drive_speeds (mode temp_x temp_y temp_r dir_x dir_y dir_r : Z)
    : list (option Z) * option ros_info :=
  let speed := speed_uninitialised in
  if mode =? MODE_ACKERMAN then
    let speed := <[0%nat := Some (temp_x * dir_x)]> speed in
    (speed, Some (Ackerman_speed (speed_at speed 0)))
  else if mode =? MODE_DIFFERENTIAL then
    let speed := <[0%nat := Some (temp_x * dir_x)]> speed in
    let speed := <[1%nat := Some ((temp_x - temp_r) * dir_x)]> speed in
    let speed :=
      if dir_r <? 0 then
        let swap := speed_at speed 0 in
        let speed := <[0%nat := speed_at speed 1]> speed in
        (* [speed[1] - swap;] is an expression statement: nothing is stored *)
        speed
      else speed in
    (speed, Some (Differential_speed (speed_at speed 0) (speed_at speed 1)))
  else if mode =? MODE_MECANUM then
    let speed := <[2%nat := Some (temp_x * dir_x)]> speed in
    let speed := <[0%nat := Some (temp_x * dir_x)]> speed in
    let speed := <[3%nat := Some ((temp_x - temp_r) * dir_x)]> speed in
    let speed := <[1%nat := Some ((temp_x - temp_r) * dir_x)]> speed in
    let speed := alter (fmap (fun v => v - temp_y * dir_y)) 0%nat speed in
    let speed := alter (fmap (fun v => v - temp_y * dir_y)) 3%nat speed in
    let speed := alter (fmap (fun v => v + temp_y * dir_y)) 1%nat speed in
    let speed := alter (fmap (fun v => v + temp_y * dir_y)) 2%nat speed in
    let speed := alter (fmap (fun v => _absmax v 1000)) 0%nat speed in
    let speed := alter (fmap (fun v => _absmax v 1000)) 1%nat speed in
    let speed := alter (fmap (fun v => _absmax v 1000)) 2%nat speed in
    let speed := alter (fmap (fun v => _absmax v 1000)) 3%nat speed in
    (speed, Some (Mecanum_speed (speed_at speed 0) (speed_at speed 1)
                                (speed_at speed 2) (speed_at speed 3)))
  else (speed, None).

(** The locals [temp_x, temp_y, temp_r, dir_x, dir_y, dir_r] of
    [servos_drive] after smoothing, and the [speed] array they give. *)
Definition twist_speeds (mode : Z) (msg : geometry_msgs.Twist)
    : list (option Z) * option ros_info :=
  let linear := geometry_msgs.linear msg in
  let angular := geometry_msgs.angular msg in
  let dir_x := dir_of (geometry_msgs.x linear) in
  let dir_y := dir_of (geometry_msgs.y linear) in
  let dir_r := dir_of (geometry_msgs.z angular) in
  let temp_x := _abs (double_to_int (geometry_msgs.x linear)) in
  let temp_y := _abs (double_to_int (geometry_msgs.x linear)) in
  let temp_r := _abs (double_to_int (geometry_msgs.z angular)) in
  let temp_x := _smoothing temp_x in
  let temp_y := _smoothing temp_y in
  let temp_r := _smoothing temp_r ÷ 2 in
  drive_speeds mode temp_x temp_y temp_r dir_x dir_y dir_r.

(** [_set_pwm_interval_proportional (i+1, speed[k])] *)
Definition drive_servo (speed : list (option Z)) (i k : Z) : M unit :=
  v <- initialised "speed" speed k;;
  _set_pwm_interval_proportional (i + 1) v.

(** [void servos_drive (const geometry_msgs::Twist::ConstPtr& msg)] *)
Definition servos_drive (msg : geometry_msgs.Twist) : M unit :=
  drive <- gets _active_drive;;
  if mode drive =? MODE_UNDEFINED then
    log (ROS_ERROR Drive_mode_not_set)
  else if (mode drive <? MODE_UNDEFINED) || (mode drive >=? MODE_INVALID) then
    log (ROS_ERROR (Unrecognized_drive_mode (mode drive)))
  else
    let '(speed, line) := twist_speeds (mode drive) msg in
    match line with Some i => log (ROS_INFO i) | None => ret tt end;;
    for_each (seqZ 0 16) (fun i =>
      active <- gets _active_board;;
      c <- servo_config_at (active - 1) i;;
      (if mode_pos c =? POSITION_LEFTFRONT then drive_servo speed i 0 else ret tt);;
      c <- servo_config_at (active - 1) i;;
      (if mode_pos c =? POSITION_RIGHTFRONT then drive_servo speed i 1 else ret tt);;
      c <- servo_config_at (active - 1) i;;
      (if mode_pos c =? POSITION_LEFTREAR then drive_servo speed i 3 else ret tt);;
      c <- servo_config_at (active - 1) i;;
      (if mode_pos c =? POSITION_RIGHTREAR then drive_servo speed i 2 else ret tt)).

(** ** Services.  Each returns [res.error]. *)

(** [bool set_pwm_frequency (IntValue::Request &req, IntValue::Response &res)] *)
Definition set_pwm_frequency (req_value : Z) : M Z :=
  let freq := req_value in
  freq <- (if (freq <? 12) || (freq >? 1024) then
             log (ROS_ERROR (Invalid_PWM_frequency freq));;
             ret 50
           else ret freq);;
  _set_pwm_frequency freq;;
  ret freq.

(** [bool set_pwm_active_board (IntValue::Request &req, IntValue::Response &res)] *)
Definition set_pwm_active_board (req_value : Z) : M Z :=
  let board := req_value in
  board <- (if (board <? 1) || (board >? 62) then
              log (ROS_ERROR (Invalid_board_number board));;
              ret 1
            else ret board);;
  _set_active_board board;;
  freq <- gets _pwm_frequency;;
  _set_pwm_frequency freq;;
  ret board.

(** A loop whose body updates [res.error]. *)
Fixpoint for_each_res {A} (l : list A) (body : A -> Z -> M Z) (error : Z) : M Z :=
  match l with
  | [] => ret error
  | a :: l' => error <- body a error;; for_each_res l' body error
  end.

(** [bool config_servos (ServosConfig::Request &req, ServosConfig::Response &res)] *)
Definition config_servos (servos : list ServoConfig.t) : M Z :=
  active <- gets _active_board;;
  if (active <? 1) || (active >? 62) then
    log (ROS_ERROR (Invalid_board_number active));;
    ret (-1)
  else
    for_each_res servos (fun req error =>
      let servo := ServoConfig.servo req in
      let center := ServoConfig.center req in
      let range := ServoConfig.range req in
      let direction := ServoConfig.direction req in
      if (servo <? 1) || (servo >? 16) then
        log (ROS_ERROR (Invalid_servo_number servo));;
        ret servo
      else if (center <? 0) || (center >? 4096) then
        log (ROS_ERROR (Invalid_center_value center));;
        ret error
      else if (center <? 0) || (center >? 4096) then
        log (ROS_ERROR (Invalid_range_value range));;
        ret error
      else if (center - (range ÷ 2) <? 0) || ((range ÷ 2) + center >? 4096) then
        log (ROS_ERROR (Invalid_range_center_combination center (range ÷ 2)));;
        ret error
      else
        active <- gets _active_board;;
        update_servo_config (active - 1) (servo - 1) (fun _ =>
          mk_servo_config center range direction POSITION_UNDEFINED);;
        ret error) 0.

(** [req.mode.c_str()]: the characters before the first NUL. *)
Fixpoint c_str (s : string) : string :=
  match s with
  | EmptyString => EmptyString
  | String c s' => if Ascii.eqb c zero then EmptyString else String c (c_str s')
  end.

(** [strcmp] on two C strings: 0 exactly when they are equal. *)
Definition strcmp (a b : string) : Z :=
  match String.compare (c_str a) (c_str b) with
  | Eq => 0
  | Lt => -1
  | Gt => 1
  end.

(** The part of [config_drive_mode] after the name has been recognised. *)
Definition set_drive_mode (mode : Z) (req : DriveMode.Request) : M Z :=
  drive <- gets _active_drive;;
  modify (set_active_drive (mk_drive_mode mode (scale drive)));;
  let scale := DriveMode.scale req in
  if Qle_bool scale 0 then
    log (ROS_ERROR (Invalid_scale scale));;
    ret (-1)
  else
    modify (set_active_drive (mk_drive_mode mode scale));;
    for_each_res (DriveMode.servos req) (fun sp error =>
      let servo := Servo.servo sp in
      let position := Servo.value sp in
      active <- gets _active_board;;
      if (active <? 1) || (active >? 62) then
        log (ROS_ERROR (Invalid_board_number active));;
        ret servo
      else if (servo <? 1) || (servo >? 16) then
        log (ROS_ERROR (Invalid_servo_number servo));;
        ret servo
      else if (position <? POSITION_UNDEFINED) || (position >? POSITION_LEFTREAR) then
        log (ROS_ERROR (Invalid_drive_mode_position position));;
        ret error
      else
        update_servo_config (active - 1) (servo - 1) (fun c =>
          mk_servo_config (center c) (range c) (direction c) position);;
        ret error) 0.

(** [bool config_drive_mode (DriveMode::Request &req, DriveMode::Response &res)] *)
Definition config_drive_mode (req : DriveMode.Request) : M Z :=
  let name := DriveMode.mode req in
  if 0 =? strcmp name "ackerman" then
    set_drive_mode MODE_ACKERMAN req
  else if 0 =? strcmp name "differential" then
    set_drive_mode MODE_DIFFERENTIAL req
  else if 0 =? strcmp name "mecanum" then
    set_drive_mode MODE_MECANUM req
  else
    log (ROS_ERROR (Invalid_drive_mode name));;
    ret (-1).

(** [bool stop_servos (std_srvs::Empty::Request& req, std_srvs::Empty::Response& res)] *)
Definition stop_servos : M unit :=
  save_active <- gets _active_board;;
  for_each (seqZ 0 62) (fun i =>
    boards <- gets _pwm_boards;;
    seen <- index "_pwm_boards" boards i;;
    if seen >? 0 then
      _set_active_board (i + 1);;
      _set_pwm_interval_all 0 0
    else ret tt);;
  modify (set_active_board save_active).

(** The first two calls of [main], on the globals [_init] leaves. *)
Definition startup : M unit :=
  _set_active_board 1;;
  _set_pwm_frequency 50.

Definition final_state {A} (o : outcome A) : state :=
  match o with Ret _ s => s | Undefined _ s => s end.

(** The node after [startup] on a bus where every call succeeds with 0. *)
Definition booted : state := final_state (startup (initial_state (fun _ => 0))).

(** Values written to the prescale register, newest first. *)
Fixpoint prescale_writes (t : list event) : list Z :=
  match t with
  | [] => []
  | i2c_write reg v _ :: t' =>
      if reg =? __PRESCALE then v :: prescale_writes t' else prescale_writes t'
  | _ :: t' => prescale_writes t'
  end.

(** ** States and commands used in the examples *)

(** Board 1 after [config_servos] has stored center 336, range 96,
    direction 1 for servo 1. *)
Definition configured : state :=
  final_state (config_servos [ServoConfig.mk 1 336 96 1] booted).

(** Boards 1 and 2 both woken up, board 1 selected again. *)
Definition two_boards : state :=
  final_state (set_pwm_active_board 1
                 (final_state (set_pwm_active_board 2 booted))).

(** [configured] with servo 1 assigned to the left-front wheel of a mecanum
    drive. *)
Definition mecanum_robot : state :=
  final_state (config_drive_mode (DriveMode.mk "mecanum" 1 [Servo.mk 1 1])
                 configured).

(** [configured] with servo 1 assigned the left-rear position of a
    differential drive, which has none. *)
Definition misassigned_robot : state :=
  final_state (config_drive_mode (DriveMode.mk "differential" 1 [Servo.mk 1 3])
                 configured).

(** A Twist message with the three components [servos_drive] reads. *)
Definition twist (lx ly az : Q) : geometry_msgs.Twist :=
  geometry_msgs.mkTwist (geometry_msgs.mkVector3 lx ly 0)
                        (geometry_msgs.mkVector3 0 0 az).

(** ** Specification vocabulary *)

(** [wp m Q s]: from [s] the computation [m] returns, and its result and
    final state satisfy [Q]. *)
Definition wp {A} (m : M A) (Q : A -> state -> Prop) (s : state) : Prop :=
  exists a s', m s = Ret a s' /\ Q a s'.

(** The effect of one kernel call and of the report that may follow it. *)
Definition report (reg r : Z) (s : state) : state :=
  if 0 >? r then emit (ROS_ERROR (Register_write_failed (u8 reg))) s else s.

Definition written (reg value : Z) (s : state) : state :=
  report reg (world s (clock s))
    (emit (i2c_write (u8 reg) (u8 value) (world s (clock s))) (tick s)).

(** Registers written on the bus with their bytes, newest first. *)
Fixpoint bus_writes (t : list event) : list (Z * Z) :=
  match t with
  | [] => []
  | i2c_write reg v _ :: t' => (reg, v) :: bus_writes t'
  | _ :: t' => bus_writes t'
  end.

(** Addresses handed to [ioctl (I2C_SLAVE)], newest first. *)
Fixpoint slave_selections (t : list event) : list Z :=
  match t with
  | [] => []
  | ioctl_I2C_SLAVE addr _ :: t' => addr :: slave_selections t'
  | _ :: t' => slave_selections t'
  end.

(** Two states with the same global variables (the bus may have moved on). *)
Definition same_globals (s s' : state) : Prop :=
  _servo_configs s' = _servo_configs s /\
  _pwm_boards s' = _pwm_boards s /\
  _controller_io_handle s' = _controller_io_handle s /\
  _active_board s' = _active_board s /\
  _pwm_frequency s' = _pwm_frequency s /\
  _active_drive s' = _active_drive s.

(** What the tests of [config_servos] leave in a channel: the values of
    [_init], or a center in 0..4096 whose two sums with half the range stay
    in 0..4096. *)
Definition calibrated (c : servo_config) : Prop :=
  (center c = -1 /\ range c = -1) \/
  (0 <= center c <= 4096 /\
   0 <= center c - range c ÷ 2 /\ range c ÷ 2 + center c <= 4096).

(** The tables have their declared sizes and every channel is [calibrated]. *)
Definition tables_ok (s : state) : Prop :=
  length (_pwm_boards s) = 62%nat /\
  length (_servo_configs s) = 62%nat /\
  Forall (fun row => length row = 16%nat /\ Forall calibrated row)
         (_servo_configs s).

(** The calibration part of the table: center, range and direction of every
    channel, without the drive positions. *)
Definition calibration_of (s : state) : list (list (Z * Z * Z)) :=
  map (map (fun c => (center c, range c, direction c))) (_servo_configs s).

(** A computation that leaves the global variables as they were, however it
    ends. *)
Definition keeps_globals {A} (m : M A) : Prop :=
  forall s, same_globals s (final_state (m s)).

(** The registers 250..253 set to zero, or nothing. *)
Definition all_channels_zeroed (new : list (Z * Z)) : Prop :=
  Forall (fun w => 250 <= fst w <= 253 /\ snd w = 0) new.

(** * Properties *)

(** ** Arithmetic helpers of the drive computation *)

Lemma _abs_spec (v : Z) : _abs v = Z.abs v.
Proof. unfold _abs. destruct (Z.ltb_spec v 0); lia. Qed.

(** What [_absmax] returns against the bound 1000: the bound itself for a
    smaller magnitude, the value as it is otherwise. *)
Lemma _absmax_1000 (v : Z) :
  _absmax v 1000 = if Z.abs v <? 1000 then 1000 else v.
Proof. unfold _absmax. rewrite !_abs_spec. reflexivity. Qed.

Lemma cos_PI_times_0 : cos_PI_times 0 = 1%Q.
Proof. reflexivity. Qed.

Lemma cos_PI_times_1 : cos_PI_times 1 = (-1)%Q.
Proof. reflexivity. Qed.

(** On 0..1000 the quotient [(1000 - speed) / 1000] is 1 at 0 and 0
    elsewhere, so [_smoothing] is a step. *)
Lemma _smoothing_step (speed : Z) :
  0 <= speed <= 1000 ->
  _smoothing speed = if speed =? 0 then 0 else 1000.
Proof.
  intros Hs. unfold _smoothing.
  destruct (Z.eqb_spec speed 0) as [->|Hne]; [reflexivity|].
  replace ((1000 - speed) ÷ 1000) with 0; [reflexivity|].
  symmetry. apply Z.quot_small. lia.
Qed.

Lemma _smoothing_monotone (v w : Z) :
  0 <= v <= w -> w <= 1000 -> _smoothing v <= _smoothing w.
Proof.
  intros Hv Hw. rewrite !_smoothing_step by lia.
  destruct (Z.eqb_spec v 0), (Z.eqb_spec w 0); lia.
Qed.

(** C1 (code defect).  The easing function passes its two end points,
    [_smoothing 0 = 0] and [_smoothing 1000 = 1000], but at the middle of the
    range it returns full speed: [_smoothing 500 = 1000], not 500, because
    [(1000 - speed) / 1000] is an integer division. *)
Theorem smoothing_midpoint_is_full_speed :
  _smoothing 0 = 0 /\ _smoothing 1000 = 1000 /\ _smoothing 500 = 1000 /\
  _smoothing 1 = 1000.
Proof. vm_compute. auto. Qed.

(** ** Drive kinematics at concrete commands *)


(** C2 (code defect).  In mecanum mode the command linear.x = 1000 (nothing
    else) gives the wheel sums 2000, 0, 0, 2000.  [_absmax (., 1000)] leaves
    2000 as it is and turns 0 into 1000: the speeds beyond the bound are not
    clamped, and the speeds within it are not kept. *)
Theorem mecanum_speeds_not_clamped :
  _absmax 2000 1000 = 2000 /\ _absmax 0 1000 = 1000 /\
  fst (drive_speeds MODE_MECANUM 1000 1000 0 1 (-1) (-1))
    = [Some 2000; Some 1000; Some 1000; Some 2000] /\
  fst (twist_speeds MODE_MECANUM (twist 1000 0 0))
    = [Some 2000; Some 1000; Some 1000; Some 2000].
Proof. vm_compute. auto. Qed.

(** C3 (code defect).  In differential mode with linear.x = 1000, the
    command angular.z = 1000 gives (left, right) = (1000, 500); the command
    angular.z = -1000 gives (500, 500), not the reverse pair (500, 1000):
    [speed[1] - swap;] stores nothing. *)
Theorem differential_reverse_not_swapped :
  take 2 (fst (twist_speeds MODE_DIFFERENTIAL (twist 1000 0 1000)))
    = [Some 1000; Some 500] /\
  take 2 (fst (twist_speeds MODE_DIFFERENTIAL (twist 1000 0 (-1000))))
    = [Some 500; Some 500] /\
  take 2 (fst (twist_speeds MODE_DIFFERENTIAL (twist 1000 0 (-1000))))
    <> rev (take 2 (fst (twist_speeds MODE_DIFFERENTIAL (twist 1000 0 1000)))).
Proof. vm_compute. repeat split; congruence. Qed.

(** The speeds of the differential mode for any inputs: with a negative
    rotation both sides get the slower speed. *)
Lemma differential_speeds (temp_x temp_y temp_r dir_x dir_y dir_r : Z) :
  fst (drive_speeds MODE_DIFFERENTIAL temp_x temp_y temp_r dir_x dir_y dir_r)
  = if dir_r <? 0
    then [Some ((temp_x - temp_r) * dir_x); Some ((temp_x - temp_r) * dir_x);
          None; None]
    else [Some (temp_x * dir_x); Some ((temp_x - temp_r) * dir_x); None; None].
Proof.
  unfold drive_speeds. cbn [Z.eqb MODE_DIFFERENTIAL MODE_ACKERMAN Pos.eqb].
  destruct (dir_r <? 0); reflexivity.
Qed.

(** The speeds of the mecanum mode for any inputs: each wheel sum goes
    through [_absmax (., 1000)]. *)
Lemma mecanum_speeds (temp_x temp_y temp_r dir_x dir_y dir_r : Z) :
  fst (drive_speeds MODE_MECANUM temp_x temp_y temp_r dir_x dir_y dir_r)
  = [Some (_absmax (temp_x * dir_x - temp_y * dir_y) 1000);
     Some (_absmax ((temp_x - temp_r) * dir_x + temp_y * dir_y) 1000);
     Some (_absmax (temp_x * dir_x + temp_y * dir_y) 1000);
     Some (_absmax ((temp_x - temp_r) * dir_x - temp_y * dir_y) 1000)].
Proof. reflexivity. Qed.

(** The unclamped speed reaches the proportional path, which refuses it. *)
Example mecanum_forward_refused :
  exists s',
    servos_drive (twist 1000 0 0) mecanum_robot = Ret tt s' /\
    trace s'
      = ROS_ERROR (Invalid_proportion_value 2000)
        :: ROS_INFO (Mecanum_speed (Some 2000) (Some 1000) (Some 1000) (Some 2000))
        :: trace mecanum_robot.
Proof. eexists. split; [vm_compute; reflexivity|]. vm_compute. reflexivity. Qed.

(** ** Array reads *)

Lemma index_lookup {A} (name : string) (a : list A) (i : Z) (v : A) (s : state) :
  0 <= i -> a !! Z.to_nat i = Some v -> index name a i s = Ret v s.
Proof.
  intros Hi Hv. unfold index. destruct (Z.ltb_spec i 0); [lia|].
  rewrite Hv. reflexivity.
Qed.

Lemma index_outside {A} (name : string) (a : list A) (i : Z) (s : state) :
  i < 0 \/ Z.of_nat (length a) <= i ->
  index name a i s = Undefined (Out_of_bounds name i) s.
Proof.
  intros Hi. unfold index. destruct (Z.ltb_spec i 0); [reflexivity|].
  rewrite (proj2 (lookup_ge_None a (Z.to_nat i))) by lia. reflexivity.
Qed.

Lemma servo_config_at_lookup (s : state) (board channel : Z)
    (row : list servo_config) (c : servo_config) :
  0 <= board -> _servo_configs s !! Z.to_nat board = Some row ->
  0 <= channel -> row !! Z.to_nat channel = Some c ->
  servo_config_at board channel s = Ret c s.
Proof.
  intros Hb Hrow Hc Hcfg. unfold servo_config_at, bind, gets.
  rewrite (index_lookup _ _ _ row) by assumption.
  apply index_lookup; assumption.
Qed.

Lemma servo_config_at_outside (s : state) (board channel : Z)
    (row : list servo_config) :
  0 <= board -> _servo_configs s !! Z.to_nat board = Some row ->
  channel < 0 \/ Z.of_nat (length row) <= channel ->
  servo_config_at board channel s
    = Undefined (Out_of_bounds "_servo_configs[]" channel) s.
Proof.
  intros Hb Hrow Hc. unfold servo_config_at, bind, gets.
  rewrite (index_lookup _ _ _ row) by assumption.
  apply index_outside; assumption.
Qed.

(** ** Proportional conversion *)

(** C4.  On a configured channel (center >= 0, range >= 0) and for a value in
    -1000..1000 the proportional command computes
    [pos = direction * ((range / 2) * value / 1000) + center] with truncating
    divisions; it logs the computed-range error and writes nothing when
    [pos < 0] or [pos > 4096], and hands [pos] to the pulse write otherwise.
    With center 336, range 96, direction 1 the values 0, 1000, -1000 give
    336, 384, 288. *)
Theorem proportional_conversion (s : state) (servo value : Z)
    (row : list servo_config) (configp : servo_config) :
  1 <= _active_board s ->
  _servo_configs s !! Z.to_nat (_active_board s - 1) = Some row ->
  1 <= servo ->
  row !! Z.to_nat (servo - 1) = Some configp ->
  0 <= center configp -> 0 <= range configp ->
  -1000 <= value <= 1000 ->
  pos configp value
    = direction configp * (Z.quot (Z.quot (range configp) 2 * value) 1000)
      + center configp /\
  (pos configp value < 0 \/ 4096 < pos configp value ->
   _set_pwm_interval_proportional servo value s
     = Ret tt (emit (ROS_ERROR (Invalid_computed_position servo (pos configp value))) s)) /\
  (0 <= pos configp value <= 4096 ->
   _set_pwm_interval_proportional servo value s
     = (_set_pwm_interval servo 0 (pos configp value);;
        log (ROS_INFO (Servo_proportional servo (pos configp value)))) s) /\
  (forall m : Z,
     let c := mk_servo_config 336 96 1 m in
     pos c 0 = 336 /\ pos c 1000 = 384 /\ pos c (-1000) = 288).
Proof.
  intros Hb Hrow Hs Hcfg Hc Hr Hv.
  assert (Hguard : (servo <? 1) && (servo >? 16) = false)
    by (destruct (Z.ltb_spec servo 1); [lia|reflexivity]).
  assert (Hval : (value <? -1000) || (value >? 1000) = false)
    by (destruct (Z.ltb_spec value (-1000)), (Z.gtb_spec value 1000);
        simpl; lia || reflexivity).
  assert (Hconf : (center configp <? 0) || (range configp <? 0) = false)
    by (destruct (Z.ltb_spec (center configp) 0), (Z.ltb_spec (range configp) 0);
        simpl; lia || reflexivity).
  assert (Hrun : forall k : servo_config -> M unit,
            bind (servo_config_at (_active_board s - 1) (servo - 1)) k s
            = k configp s).
  { intros k. unfold bind at 1.
    rewrite (servo_config_at_lookup s _ _ row configp) by (assumption || lia).
    reflexivity. }
  split; [reflexivity|]. split; [|split].
  - intros Hout. unfold _set_pwm_interval_proportional.
    rewrite Hguard, Hval. unfold bind at 1, gets at 1.
    rewrite Hrun, Hconf.
    replace ((pos configp value <? 0) || (pos configp value >? 4096)) with true.
    + reflexivity.
    + destruct (Z.ltb_spec (pos configp value) 0),
        (Z.gtb_spec (pos configp value) 4096); simpl; lia || reflexivity.
  - intros Hin. unfold _set_pwm_interval_proportional.
    rewrite Hguard, Hval. unfold bind at 1, gets at 1.
    rewrite Hrun, Hconf.
    replace ((pos configp value <? 0) || (pos configp value >? 4096)) with false.
    + reflexivity.
    + destruct (Z.ltb_spec (pos configp value) 0),
        (Z.gtb_spec (pos configp value) 4096); simpl; lia || reflexivity.
  - intros m c. vm_compute. auto.
Qed.

Lemma proportional_conversion_witness :
  (1 <= _active_board configured /\
   _servo_configs configured !! Z.to_nat (_active_board configured - 1)
     = Some (<[0%nat := mk_servo_config 336 96 1 0]> (replicate 16 unconfigured)) /\
   1 <= 1 /\
   <[0%nat := mk_servo_config 336 96 1 0]> (replicate 16 unconfigured)
     !! Z.to_nat (1 - 1) = Some (mk_servo_config 336 96 1 0) /\
   0 <= 336 /\ 0 <= 96 /\ -1000 <= 1000 <= 1000) /\
  _set_pwm_interval_proportional 1 1000 configured
    = (_set_pwm_interval 1 0 384;;
       log (ROS_INFO (Servo_proportional 1 384))) configured.
Proof.
  split; [repeat split; (reflexivity || lia)|].
  refine (proj1 (proj2 (proj2
    (proportional_conversion configured 1 1000
       (<[0%nat := mk_servo_config 336 96 1 0]> (replicate 16 unconfigured))
       (mk_servo_config 336 96 1 0) _ _ _ _ _ _ _))) _);
    (reflexivity || (simpl; lia) || (vm_compute; split; discriminate)).
Defined.

(** ** The servo-number guard of the proportional and absolute paths *)

Lemma servo_guard_false (servo : Z) : (servo <? 1) && (servo >? 16) = false.
Proof.
  destruct (Z.ltb_spec servo 1), (Z.gtb_spec servo 16); simpl; lia || reflexivity.
Qed.

(** Two runs that end by logging different lines are different runs. *)
Lemma last_line_differs {A} (a a' : A) (e e' : event) (s s' : state) :
  e <> e' -> Ret a (emit e s) <> Ret a' (emit e' s').
Proof.
  intros Hne H.
  apply (f_equal (fun o => trace (final_state o))) in H. simpl in H.
  congruence.
Qed.

(** C9.  The test [(servo < 1) && (servo > 16)] is false for every integer,
    so the proportional path never answers with its servo-number error; with
    a servo number outside 1..16 (and a value in range) it goes on to read
    [_servo_configs[_active_board-1][servo-1]] outside the 16 channels of the
    row.  The absolute handler has the same test: it passes an out-of-range
    servo number on to [_set_pwm_interval] and logs its info line after the
    callee has refused the number. *)
Theorem servo_number_guard_never_rejects (s : state) (servo value pulse : Z)
    (row : list servo_config) :
  servo < 1 \/ 16 < servo ->
  -1000 <= value <= 1000 ->
  0 <= pulse <= 4096 ->
  1 <= _active_board s <= 62 ->
  _servo_configs s !! Z.to_nat (_active_board s - 1) = Some row ->
  length row = 16%nat ->
  (forall n : Z, (n <? 1) && (n >? 16) = false) /\
  (forall (n v : Z) (s0 : state),
     _set_pwm_interval_proportional n v s0
       <> Ret tt (emit (ROS_ERROR (Invalid_servo_number n)) s0)) /\
  _set_pwm_interval_proportional servo value s
    = Undefined (Out_of_bounds "_servo_configs[]" (servo - 1)) s /\
  servos_absolute [Servo.mk servo pulse] s
    = Ret tt (emit (ROS_INFO (Servo_absolute servo pulse))
                (emit (ROS_ERROR (Invalid_servo_number servo)) s)).
Proof.
  intros Hservo Hvalue Hpulse Hboard Hrow Hlen.
  split; [exact servo_guard_false|]. split; [|split].
  - intros n v s0. unfold _set_pwm_interval_proportional.
    rewrite servo_guard_false.
    destruct ((v <? -1000) || (v >? 1000));
      [apply last_line_differs; discriminate|].
    unfold bind at 1, gets at 1. unfold bind at 1.
    destruct (servo_config_at (_active_board s0 - 1) (n - 1) s0) as [c s1|u s1];
      [|discriminate].
    destruct ((center c <? 0) || (range c <? 0));
      [apply last_line_differs; discriminate|].
    cbv zeta.
    destruct ((pos c v <? 0) || (pos c v >? 4096));
      [apply last_line_differs; discriminate|].
    unfold bind at 1.
    destruct (_set_pwm_interval n 0 (pos c v) s1) as [[] s2|u s2];
      [apply last_line_differs; discriminate|discriminate].
  - unfold _set_pwm_interval_proportional.
    rewrite servo_guard_false.
    replace ((value <? -1000) || (value >? 1000)) with false
      by (destruct (Z.ltb_spec value (-1000)), (Z.gtb_spec value 1000);
          simpl; lia || reflexivity).
    unfold bind at 1, gets at 1. unfold bind at 1.
    rewrite (servo_config_at_outside s _ _ row) by (assumption || lia).
    reflexivity.
  - unfold servos_absolute, for_each. cbn [Servo.servo Servo.value].
    rewrite servo_guard_false.
    replace ((pulse <? 0) || (pulse >? 4096)) with false
      by (destruct (Z.ltb_spec pulse 0), (Z.gtb_spec pulse 4096);
          simpl; lia || reflexivity).
    unfold _set_pwm_interval, bind, gets, log, modify, ret.
    replace ((_active_board s <? 1) || (_active_board s >? 62)) with false
      by (destruct (Z.ltb_spec (_active_board s) 1),
            (Z.gtb_spec (_active_board s) 62); simpl; lia || reflexivity).
    replace ((servo <? 1) || (servo >? 16)) with true
      by (destruct (Z.ltb_spec servo 1), (Z.gtb_spec servo 16);
          simpl; lia || reflexivity).
    reflexivity.
Qed.

Lemma servo_number_guard_never_rejects_witness :
  (17 < 1 \/ 16 < 17) /\ -1000 <= 0 <= 1000 /\ 0 <= 0 <= 4096 /\
  1 <= _active_board booted <= 62 /\
  _servo_configs booted !! Z.to_nat (_active_board booted - 1)
    = Some (replicate 16 unconfigured) /\
  length (replicate 16 unconfigured) = 16%nat /\
  _set_pwm_interval_proportional 17 0 booted
    = Undefined (Out_of_bounds "_servo_configs[]" 16) booted /\
  servos_absolute [Servo.mk 17 0] booted
    = Ret tt (emit (ROS_INFO (Servo_absolute 17 0))
                (emit (ROS_ERROR (Invalid_servo_number 17)) booted)).
Proof.
  assert (H1 : 17 < 1 \/ 16 < 17) by (right; lia).
  assert (H2 : -1000 <= 0 <= 1000) by lia.
  assert (H3 : 0 <= 0 <= 4096) by lia.
  assert (H4 : 1 <= _active_board booted <= 62) by (vm_compute; split; discriminate).
  assert (H5 : _servo_configs booted !! Z.to_nat (_active_board booted - 1)
               = Some (replicate 16 unconfigured)) by reflexivity.
  assert (H6 : length (replicate 16 unconfigured) = 16%nat) by reflexivity.
  repeat (split; [assumption|]).
  exact (proj2 (proj2
    (servo_number_guard_never_rejects booted 17 0 0
       (replicate 16 unconfigured) H1 H2 H3 H4 H5 H6))).
Defined.

(** ** Drive-mode configuration *)

(** C10.  A request with a recognised mode name and a scale that is not
    positive is answered with the error -1 and the scale error in the log,
    but [_active_drive.mode] already holds the requested mode; the stored
    scale and the servo table are as before. *)
Theorem config_drive_mode_not_atomic (s : state) (req : DriveMode.Request)
    (m : Z) :
  In (DriveMode.mode req, m)
     [("ackerman"%string, MODE_ACKERMAN);
      ("differential"%string, MODE_DIFFERENTIAL);
      ("mecanum"%string, MODE_MECANUM)] ->
  (DriveMode.scale req <= 0)%Q ->
  exists s',
    config_drive_mode req s = Ret (-1) s' /\
    trace s' = ROS_ERROR (Invalid_scale (DriveMode.scale req)) :: trace s /\
    mode (_active_drive s') = m /\
    scale (_active_drive s') = scale (_active_drive s) /\
    _servo_configs s' = _servo_configs s /\
    _active_board s' = _active_board s.
Proof.
  intros Hname Hscale.
  apply Qle_bool_iff in Hscale.
  assert (Hrun : set_drive_mode m req s
            = Ret (-1) (emit (ROS_ERROR (Invalid_scale (DriveMode.scale req)))
                        (set_active_drive
                           (mk_drive_mode m (scale (_active_drive s))) s))).
  { unfold set_drive_mode, bind, gets, modify, log, ret. cbv zeta.
    rewrite Hscale. reflexivity. }
  exists (emit (ROS_ERROR (Invalid_scale (DriveMode.scale req)))
            (set_active_drive (mk_drive_mode m (scale (_active_drive s))) s)).
  split; [|repeat split].
  unfold config_drive_mode. cbv zeta.
  simpl in Hname.
  destruct Hname as [H|[H|[H|[]]]]; injection H as Hmode <-;
    rewrite <- Hmode; exact Hrun.
Qed.

Lemma config_drive_mode_not_atomic_witness :
  In (DriveMode.mode (DriveMode.mk "mecanum" 0 []), MODE_MECANUM)
     [("ackerman"%string, MODE_ACKERMAN);
      ("differential"%string, MODE_DIFFERENTIAL);
      ("mecanum"%string, MODE_MECANUM)] /\
  (DriveMode.scale (DriveMode.mk "mecanum" 0 []) <= 0)%Q /\
  exists s',
    config_drive_mode (DriveMode.mk "mecanum" 0 []) booted = Ret (-1) s' /\
    trace s' = ROS_ERROR (Invalid_scale 0) :: trace booted /\
    mode (_active_drive s') = MODE_MECANUM /\
    scale (_active_drive s') = scale (_active_drive booted) /\
    _servo_configs s' = _servo_configs booted /\
    _active_board s' = _active_board booted.
Proof.
  assert (H1 : In (DriveMode.mode (DriveMode.mk "mecanum" 0 []), MODE_MECANUM)
                 [("ackerman"%string, MODE_ACKERMAN);
                  ("differential"%string, MODE_DIFFERENTIAL);
                  ("mecanum"%string, MODE_MECANUM)])
    by (simpl; tauto).
  assert (H2 : (DriveMode.scale (DriveMode.mk "mecanum" 0 []) <= 0)%Q)
    by (vm_compute; discriminate).
  split; [exact H1|]. split; [exact H2|].
  exact (config_drive_mode_not_atomic booted (DriveMode.mk "mecanum" 0 [])
           MODE_MECANUM H1 H2).
Defined.

(** ** Rules for runs that return *)

Section WpRules.
Context {A B : Type}.

Lemma wp_ret (a : A) (Q : A -> state -> Prop) (s : state) :
  Q a s -> wp (ret a) Q s.
Proof. intros H. exists a, s. split; [reflexivity|exact H]. Qed.

Lemma wp_bind (m : M A) (k : A -> M B) (Q : B -> state -> Prop) (s : state) :
  wp m (fun a s' => wp (k a) Q s') s -> wp (bind m k) Q s.
Proof.
  intros (a & s' & Hm & b & s'' & Hk & HQ).
  exists b, s''. split; [|exact HQ]. unfold bind. rewrite Hm. exact Hk.
Qed.

Lemma wp_gets (f : state -> A) (Q : A -> state -> Prop) (s : state) :
  Q (f s) s -> wp (gets f) Q s.
Proof. intros H. exists (f s), s. split; [reflexivity|exact H]. Qed.

Lemma wp_mono (m : M A) (Q Q' : A -> state -> Prop) (s : state) :
  wp m Q s -> (forall a s', Q a s' -> Q' a s') -> wp m Q' s.
Proof. intros (a & s' & Hm & HQ) H. exists a, s'. auto. Qed.

Lemma wp_index (name : string) (a : list A) (i : Z) (v : A)
    (Q : A -> state -> Prop) (s : state) :
  0 <= i -> a !! Z.to_nat i = Some v -> Q v s -> wp (index name a i) Q s.
Proof.
  intros Hi Hv HQ. exists v, s. split; [|exact HQ].
  apply index_lookup; assumption.
Qed.
End WpRules.

Lemma wp_modify (f : state -> state) (Q : unit -> state -> Prop) (s : state) :
  Q tt (f s) -> wp (modify f) Q s.
Proof. intros H. exists tt, (f s). split; [reflexivity|exact H]. Qed.

Lemma wp_log (e : event) (Q : unit -> state -> Prop) (s : state) :
  Q tt (emit e s) -> wp (log e) Q s.
Proof. apply wp_modify. Qed.

Lemma wp_for_each {A} (I : state -> Prop) (l : list A) (body : A -> M unit)
    (s : state) :
  I s ->
  (forall a s', In a l -> I s' -> wp (body a) (fun _ => I) s') ->
  wp (for_each l body) (fun _ => I) s.
Proof.
  revert s. induction l as [|a l IH]; intros s Hs Hbody.
  - apply wp_ret. exact Hs.
  - simpl. apply wp_bind.
    apply (wp_mono _ (fun _ => I)); [apply Hbody; [left; reflexivity|exact Hs]|].
    intros _ s' Hs'. apply IH; [exact Hs'|].
    intros b s'' Hb. apply Hbody. right. exact Hb.
Qed.


Lemma write_or_report_run (reg value : Z) (s : state) :
  write_or_report reg value s = Ret tt (written reg value s).
Proof.
  unfold write_or_report, i2c_smbus_write_byte_data, kernel_call, written,
    report, bind, log, modify, ret.
  cbn [world clock tick emit].
  destruct (0 >? world s (clock s)); reflexivity.
Qed.

Lemma wp_write_or_report (reg value : Z) (Q : unit -> state -> Prop) (s : state) :
  Q tt (written reg value s) -> wp (write_or_report reg value) Q s.
Proof.
  intros H. exists tt, (written reg value s).
  split; [apply write_or_report_run|exact H].
Qed.

Lemma wp_read (reg : Z) (Q : Z -> state -> Prop) (s : state) :
  Q (world s (clock s)) (emit (i2c_read (u8 reg) (world s (clock s))) (tick s)) ->
  wp (i2c_smbus_read_byte_data reg) Q s.
Proof. intros H. eexists _, _. split; [reflexivity|exact H]. Qed.

Lemma wp_ioctl_slave (addr : Z) (Q : Z -> state -> Prop) (s : state) :
  Q (world s (clock s))
    (emit (ioctl_I2C_SLAVE addr (world s (clock s))) (tick s)) ->
  wp (ioctl_slave addr) Q s.
Proof. intros H. eexists _, _. split; [reflexivity|exact H]. Qed.

(** [written] touches the clock and the trace only. *)
Lemma written_globals (reg value : Z) (s : state) :
  _servo_configs (written reg value s) = _servo_configs s /\
  _pwm_boards (written reg value s) = _pwm_boards s /\
  _active_board (written reg value s) = _active_board s /\
  _pwm_frequency (written reg value s) = _pwm_frequency s /\
  _active_drive (written reg value s) = _active_drive s.
Proof.
  unfold written, report. destruct (0 >? world s (clock s)); repeat split.
Qed.

Lemma written_trace_incl (reg value : Z) (s : state) (e : event) :
  In e (trace s) -> In e (trace (written reg value s)).
Proof.
  unfold written, report. destruct (0 >? world s (clock s)); simpl; auto.
Qed.

Lemma written_prescale_writes (reg value : Z) (s : state) :
  prescale_writes (trace (written reg value s))
  = if u8 reg =? __PRESCALE
    then u8 value :: prescale_writes (trace s)
    else prescale_writes (trace s).
Proof.
  unfold written, report.
  destruct (0 >? world s (clock s)); cbn [trace emit tick prescale_writes];
    destruct (u8 reg =? __PRESCALE); reflexivity.
Qed.

(** Replace every state [written r v t] by a fresh state, keeping what
    [written] guarantees about it. *)
Ltac forget_write r v t :=
  let G := fresh "G" in
  let T := fresh "T" in
  let W := fresh "W" in
  pose proof (written_globals r v t) as G;
  pose proof (written_trace_incl r v t) as T;
  pose proof (written_prescale_writes r v t) as W;
  generalize dependent (written r v t); intros.

Ltac forget_writes :=
  repeat match goal with
         | |- context [written ?r ?v ?t] => forget_write r v t
         | H : context [written ?r ?v ?t] |- _ => forget_write r v t
         end.

(** ** Frequency *)

Lemma prescale_50 : prescale 50 = 121.
Proof. reflexivity. Qed.

(** What [_set_pwm_frequency] does, whatever the bus answers. *)
Lemma _set_pwm_frequency_run (freq : Z) (s : state) :
  wp (_set_pwm_frequency freq)
     (fun _ s' =>
        _pwm_frequency s' = freq /\
        prescale_writes (trace s')
          = u8 (prescale freq) :: prescale_writes (trace s) /\
        (forall e, In e (trace s) -> In e (trace s')) /\
        _servo_configs s' = _servo_configs s /\
        _pwm_boards s' = _pwm_boards s /\
        _active_board s' = _active_board s /\
        _active_drive s' = _active_drive s) s.
Proof.
  unfold _set_pwm_frequency.
  apply wp_bind, wp_modify. cbv zeta.
  apply wp_bind, wp_log. apply wp_bind, wp_log. apply wp_bind, wp_read.
  apply wp_bind, wp_write_or_report. apply wp_bind, wp_write_or_report.
  apply wp_bind, wp_write_or_report. apply wp_bind, wp_log.
  apply wp_write_or_report.
  forget_writes.
  cbn [trace emit tick set_pwm_frequency_var _servo_configs _pwm_boards
       _active_board _pwm_frequency _active_drive prescale_writes] in *.
  change (u8 __MODE1 =? __PRESCALE) with false in *.
  change (u8 __PRESCALE =? __PRESCALE) with true in *.
  cbv iota in *.
  intuition (try congruence).
  repeat match goal with
         | H : forall e, In e _ -> In e (trace ?x) |- In _ (trace ?x) => apply H
         | |- In _ (_ :: _) => right
         end.
  assumption.
Qed.

(** C5.  A requested frequency outside 12..1024 is reported as invalid and is
    not applied: the service continues with the frequency 50 in its place, so
    the stored frequency is 50, the one value written to the prescale
    register is that of 50 Hz (121), and 50 is returned. *)
Theorem set_pwm_frequency_out_of_range (s : state) (freq : Z) :
  freq < 12 \/ 1024 < freq ->
  exists s',
    set_pwm_frequency freq s = Ret 50 s' /\
    set_pwm_frequency freq s
      = (log (ROS_ERROR (Invalid_PWM_frequency freq));;
         _set_pwm_frequency 50;; ret 50) s /\
    In (ROS_ERROR (Invalid_PWM_frequency freq)) (trace s') /\
    _pwm_frequency s' = 50 /\
    _pwm_frequency s' <> freq /\
    prescale_writes (trace s') = [121] ++ prescale_writes (trace s).
Proof.
  intros Hfreq.
  assert (Hguard : (freq <? 12) || (freq >? 1024) = true)
    by (destruct (Z.ltb_spec freq 12), (Z.gtb_spec freq 1024);
        simpl; lia || reflexivity).
  assert (Hrun : set_pwm_frequency freq s
            = (log (ROS_ERROR (Invalid_PWM_frequency freq));;
               _set_pwm_frequency 50;; ret 50) s).
  { unfold set_pwm_frequency. rewrite Hguard. reflexivity. }
  destruct (_set_pwm_frequency_run 50
              (emit (ROS_ERROR (Invalid_PWM_frequency freq)) s))
    as ([] & s' & Hs' & Hf & Hw & Ht & _).
  exists s'. split; [|split; [exact Hrun|]].
  - rewrite Hrun. unfold bind, log, modify, ret. rewrite Hs'. reflexivity.
  - split; [apply Ht; left; reflexivity|].
    split; [exact Hf|]. split; [lia|]. exact Hw.
Qed.


Lemma set_pwm_frequency_out_of_range_witness :
  (5000 < 12 \/ 1024 < 5000) /\
  exists s',
    set_pwm_frequency 5000 booted = Ret 50 s' /\
    set_pwm_frequency 5000 booted
      = (log (ROS_ERROR (Invalid_PWM_frequency 5000));;
         _set_pwm_frequency 50;; ret 50) booted /\
    In (ROS_ERROR (Invalid_PWM_frequency 5000)) (trace s') /\
    _pwm_frequency s' = 50 /\
    _pwm_frequency s' <> 5000 /\
    prescale_writes (trace s') = [121] ++ prescale_writes (trace booted).
Proof.
  assert (H : 5000 < 12 \/ 1024 < 5000) by (right; lia).
  split; [exact H|].
  exact (set_pwm_frequency_out_of_range booted 5000 H).
Defined.

(** A frequency inside 12..1024 is the one stored and programmed. *)
Lemma set_pwm_frequency_in_range (s : state) (freq : Z) :
  12 <= freq <= 1024 ->
  exists s',
    set_pwm_frequency freq s = Ret freq s' /\
    _pwm_frequency s' = freq /\
    prescale_writes (trace s')
      = u8 (prescale freq) :: prescale_writes (trace s).
Proof.
  intros Hfreq.
  assert (Hguard : (freq <? 12) || (freq >? 1024) = false)
    by (destruct (Z.ltb_spec freq 12), (Z.gtb_spec freq 1024);
        simpl; lia || reflexivity).
  destruct (_set_pwm_frequency_run freq s) as ([] & s' & Hs' & Hf & Hw & _).
  exists s'. split; [|split; assumption].
  unfold set_pwm_frequency. rewrite Hguard.
  unfold bind, ret. rewrite Hs'. reflexivity.
Qed.

(** ** Stopping every board *)

Lemma _set_pwm_interval_all_run (start end_ : Z) (s : state) :
  wp (_set_pwm_interval_all start end_)
     (fun _ s' => _pwm_boards s' = _pwm_boards s) s.
Proof.
  unfold _set_pwm_interval_all. apply wp_bind, wp_gets.
  destruct ((_active_board s <? 1) || (_active_board s >? 62)).
  - apply wp_log. reflexivity.
  - apply wp_bind, wp_write_or_report. apply wp_bind, wp_write_or_report.
    apply wp_bind, wp_write_or_report. apply wp_write_or_report.
    forget_writes. intuition congruence.
Qed.

(** The board table keeps its 62 entries when a board is selected, and the
    selection always returns. *)
Lemma _set_active_board_run (board : Z) (s : state) :
  length (_pwm_boards s) = 62%nat ->
  wp (_set_active_board board)
     (fun _ s' => length (_pwm_boards s') = 62%nat) s.
Proof.
  intros Hlen. unfold _set_active_board.
  destruct (Z.ltb_spec board 1) as [|Hlo]; [apply wp_log; exact Hlen|].
  destruct (Z.gtb_spec board 62) as [|Hhi]; [apply wp_log; exact Hlen|].
  cbn [orb]. apply wp_bind, wp_gets.
  destruct (negb (_active_board s =? board)); [|apply wp_ret; exact Hlen].
  apply wp_bind, wp_modify. cbv zeta. apply wp_bind, wp_ioctl_slave.
  match goal with |- context [if ?b then _ else _] => destruct b end;
    [apply wp_log; exact Hlen|].
  apply wp_bind, wp_gets.
  cbn [_pwm_boards emit tick set_active_board].
  destruct (lookup_lt_is_Some_2 (_pwm_boards s) (Z.to_nat (board - 1)))
    as [seen Hseen]; [lia|].
  apply wp_bind, (wp_index _ _ _ seen); [lia|exact Hseen|].
  destruct (seen <? 0); [|apply wp_ret; exact Hlen].
  apply wp_bind, wp_modify.
  apply wp_bind, wp_write_or_report. apply wp_bind, wp_write_or_report.
  apply wp_bind, wp_log. apply wp_bind, wp_read.
  cbv zeta. apply wp_bind, wp_write_or_report. apply wp_bind, wp_log.
  eapply wp_mono; [apply _set_pwm_interval_all_run|].
  intros [] s' Hs'. cbv beta in Hs'. rewrite Hs'. clear s' Hs'.
  forget_writes.
  cbn [_pwm_boards emit tick set_active_board set_pwm_boards] in *.
  replace (length (_pwm_boards s0)) with
    (length (<[Z.to_nat (board - 1) := 1]> (_pwm_boards s)))
    by intuition congruence.
  rewrite length_insert. exact Hlen.
Qed.

(** C8.  From every state (with its table of 62 boards) [stop_servos]
    returns, and the active board is the one from before the call. *)
Theorem stop_servos_restores_active_board (s : state) :
  length (_pwm_boards s) = 62%nat ->
  exists s', stop_servos s = Ret tt s' /\ _active_board s' = _active_board s.
Proof.
  intros Hlen.
  assert (H : wp stop_servos (fun _ s' => _active_board s' = _active_board s) s).
  { unfold stop_servos. apply wp_bind, wp_gets. apply wp_bind.
    eapply wp_mono.
    - apply (wp_for_each (fun s' => length (_pwm_boards s') = 62%nat));
        [exact Hlen|].
      intros i s1 Hi Hs1.
      apply list_elem_of_In, elem_of_seqZ in Hi.
      apply wp_bind, wp_gets.
      destruct (lookup_lt_is_Some_2 (_pwm_boards s1) (Z.to_nat i))
        as [seen Hseen]; [lia|].
      apply wp_bind, (wp_index _ _ _ seen); [lia|exact Hseen|].
      destruct (seen >? 0); [|apply wp_ret; exact Hs1].
      apply wp_bind.
      eapply wp_mono; [apply _set_active_board_run; exact Hs1|].
      intros [] s2 Hs2. cbv beta in Hs2.
      eapply wp_mono; [apply _set_pwm_interval_all_run|].
      intros [] s3 Hs3. cbv beta in Hs3. rewrite Hs3. exact Hs2.
    - intros [] s1 _. apply wp_modify. reflexivity. }
  destruct H as ([] & s' & Hrun & Hactive). exists s'. split; assumption.
Qed.

Lemma stop_servos_restores_active_board_witness :
  length (_pwm_boards two_boards) = 62%nat /\
  exists s',
    stop_servos two_boards = Ret tt s' /\
    _active_board s' = _active_board two_boards.
Proof.
  assert (H : length (_pwm_boards two_boards) = 62%nat) by reflexivity.
  split; [exact H|].
  exact (stop_servos_restores_active_board two_boards H).
Defined.

(** ** Calibration and drive positions *)

Lemma update_servo_config_run (s : state) (board channel : Z)
    (f : servo_config -> servo_config) (row : list servo_config)
    (c : servo_config) :
  0 <= board -> _servo_configs s !! Z.to_nat board = Some row ->
  0 <= channel -> row !! Z.to_nat channel = Some c ->
  update_servo_config board channel f s
  = Ret tt (set_servo_configs
              (<[Z.to_nat board := <[Z.to_nat channel := f c]> row]>
                 (_servo_configs s)) s).
Proof.
  intros Hb Hrow Hc Hcfg. unfold update_servo_config, bind, gets.
  rewrite (index_lookup _ _ _ row) by assumption.
  rewrite (index_lookup _ _ _ c) by assumption.
  reflexivity.
Qed.

(** What [config_servos] asks of an entry: the servo number, the center and
    the two sums with half the range.  The range itself is free. *)
Lemma config_servos_entry (s : state) (req : ServoConfig.t)
    (row : list servo_config) (c : servo_config) :
  1 <= _active_board s <= 62 ->
  _servo_configs s !! Z.to_nat (_active_board s - 1) = Some row ->
  1 <= ServoConfig.servo req <= 16 ->
  row !! Z.to_nat (ServoConfig.servo req - 1) = Some c ->
  0 <= ServoConfig.center req <= 4096 ->
  0 <= ServoConfig.center req - ServoConfig.range req ÷ 2 ->
  ServoConfig.range req ÷ 2 + ServoConfig.center req <= 4096 ->
  config_servos [req] s
  = Ret 0 (set_servo_configs
             (<[Z.to_nat (_active_board s - 1) :=
                  <[Z.to_nat (ServoConfig.servo req - 1) :=
                      mk_servo_config (ServoConfig.center req)
                        (ServoConfig.range req) (ServoConfig.direction req)
                        POSITION_UNDEFINED]> row]>
                (_servo_configs s)) s).
Proof.
  intros Hb Hrow Hs Hc Hcen Hlo Hhi.
  unfold config_servos, for_each_res. unfold bind at 1, gets at 1.
  replace ((_active_board s <? 1) || (_active_board s >? 62)) with false
    by (destruct (Z.ltb_spec (_active_board s) 1),
          (Z.gtb_spec (_active_board s) 62); simpl; lia || reflexivity).
  cbv zeta.
  replace ((ServoConfig.servo req <? 1) || (ServoConfig.servo req >? 16))
    with false
    by (destruct (Z.ltb_spec (ServoConfig.servo req) 1),
          (Z.gtb_spec (ServoConfig.servo req) 16); simpl; lia || reflexivity).
  replace ((ServoConfig.center req <? 0) || (ServoConfig.center req >? 4096))
    with false
    by (destruct (Z.ltb_spec (ServoConfig.center req) 0),
          (Z.gtb_spec (ServoConfig.center req) 4096); simpl; lia || reflexivity).
  replace ((ServoConfig.center req - ServoConfig.range req ÷ 2 <? 0)
           || (ServoConfig.range req ÷ 2 + ServoConfig.center req >? 4096))
    with false
    by (destruct (Z.ltb_spec (ServoConfig.center req - ServoConfig.range req ÷ 2) 0),
          (Z.gtb_spec (ServoConfig.range req ÷ 2 + ServoConfig.center req) 4096);
        simpl; lia || reflexivity).
  unfold bind, gets, ret.
  rewrite (update_servo_config_run s _ _ _ row c) by (assumption || lia).
  reflexivity.
Qed.


(** C7 (code defect).  [config_servos] never tests the range on its own (the
    second test repeats the one on the center), so on board 1 the entries
    (center 336, range -100) and (center 2048, range 4097) are stored without
    any error, although their ranges are outside 0..4096.  The two entries of
    the specification behave as it says: (4000, 200) is refused and leaves
    the channel as it was, (336, 96, 1) is stored. *)
Theorem config_servos_accepts_bad_range :
  exists s',
    config_servos [ServoConfig.mk 1 336 (-100) 1; ServoConfig.mk 2 2048 4097 1;
                   ServoConfig.mk 3 4000 200 1; ServoConfig.mk 4 336 96 1]
                  booted = Ret 0 s' /\
    take 4 <$> (_servo_configs s' !! 0%nat)
      = Some [mk_servo_config 336 (-100) 1 0; mk_servo_config 2048 4097 1 0;
              unconfigured; mk_servo_config 336 96 1 0] /\
    trace s'
      = ROS_ERROR (Invalid_range_center_combination 4000 100) :: trace booted.
Proof. eexists. split; [vm_compute; reflexivity|]. vm_compute. auto. Qed.

Lemma position_guard (position : Z) :
  (position <? POSITION_UNDEFINED) || (position >? POSITION_LEFTREAR) = false
  <-> 0 <= position <= 3.
Proof.
  unfold POSITION_UNDEFINED, POSITION_LEFTREAR.
  destruct (Z.ltb_spec position 0), (Z.gtb_spec position 3); simpl;
    split; intros; lia || congruence.
Qed.

(** With a valid board, servo and scale, position 4 only earns the error. *)
Lemma set_drive_mode_right_rear (s : state) (m servo : Z) (name : string)
    (factor : Q) :
  1 <= _active_board s <= 62 ->
  1 <= servo <= 16 ->
  (0 < factor)%Q ->
  set_drive_mode m
    (DriveMode.mk name factor [Servo.mk servo POSITION_RIGHTREAR]) s
  = Ret 0 (emit (ROS_ERROR (Invalid_drive_mode_position POSITION_RIGHTREAR))
             (set_active_drive (mk_drive_mode m factor) s)).
Proof.
  intros Hb Hs Hf.
  unfold set_drive_mode, for_each_res, bind, gets, modify, log, ret.
  cbn [DriveMode.scale DriveMode.servos Servo.servo Servo.value].
  replace (Qle_bool factor 0) with false.
  - cbn [_active_board set_active_drive].
    replace ((_active_board s <? 1) || (_active_board s >? 62)) with false
      by (destruct (Z.ltb_spec (_active_board s) 1),
            (Z.gtb_spec (_active_board s) 62); simpl; lia || reflexivity).
    replace ((servo <? 1) || (servo >? 16)) with false
      by (destruct (Z.ltb_spec servo 1), (Z.gtb_spec servo 16);
          simpl; lia || reflexivity).
    reflexivity.
  - symmetry. apply not_true_is_false. intros H.
    apply Qle_bool_iff in H. apply (Qlt_not_le _ _ Hf H).
Qed.

(** C6 (code defect).  [config_drive_mode] compares the position with
    [POSITION_LEFTREAR] (3), so position 4, right rear, is refused with the
    position error and the channel keeps its old drive position, while
    positions 1, 2, 3 are stored. *)
Theorem config_drive_mode_rejects_right_rear :
  exists s',
    config_drive_mode
      (DriveMode.mk "mecanum" 1
         [Servo.mk 1 1; Servo.mk 2 2; Servo.mk 3 3; Servo.mk 4 4]) booted
      = Ret 0 s' /\
    map mode_pos <$> (take 4 <$> (_servo_configs booted !! 0%nat))
      = Some [-1; -1; -1; -1] /\
    map mode_pos <$> (take 4 <$> (_servo_configs s' !! 0%nat))
      = Some [1; 2; 3; -1] /\
    trace s' = ROS_ERROR (Invalid_drive_mode_position 4) :: trace booted.
Proof. eexists. split; [vm_compute; reflexivity|]. vm_compute. auto. Qed.

(** ** The arithmetic of [pos] stays inside [int] *)

Lemma quot_bound (a b m : Z) : 0 < b -> - m <= a <= m -> - m <= a ÷ b <= m.
Proof.
  intros Hb Ha. destruct (Z.le_gt_cases 0 a) as [Hpos|Hneg].
  - rewrite Z.quot_div_nonneg by lia.
    pose proof (Z.div_pos a b Hpos Hb).
    pose proof (Z.div_le_upper_bound a b m Hb). nia.
  - replace a with (- (- a)) by lia. rewrite Z.quot_opp_l by lia.
    rewrite Z.quot_div_nonneg by lia.
    assert (0 <= - a) as Hpos by lia.
    pose proof (Z.div_pos (- a) b Hpos Hb).
    pose proof (Z.div_le_upper_bound (- a) b m Hb). nia.
Qed.

Lemma pos_fits_int (c : servo_config) (value : Z) :
  - 32768 <= center c <= 32767 ->
  - 32768 <= range c <= 32767 ->
  - 32768 <= direction c <= 32767 ->
  - 1000 <= value <= 1000 ->
  - 2 ^ 31 <= (range c ÷ 2) * value < 2 ^ 31 /\
  - 2 ^ 31 <= direction c * (((range c ÷ 2) * value) ÷ 1000) < 2 ^ 31 /\
  - 2 ^ 31 <= pos c value < 2 ^ 31.
Proof.
  intros Hc Hr Hd Hv. unfold pos.
  assert (Hhalf : - 32768 <= range c ÷ 2 <= 32768)
    by (pose proof (quot_bound (range c) 2 32768); lia).
  assert (Hprod : - 32768000 <= (range c ÷ 2) * value <= 32768000) by nia.
  assert (Hq' : - 32768 <= ((range c ÷ 2) * value) ÷ 1000 <= 32768).
  { pose proof (Z.quot_rem' ((range c ÷ 2) * value) 1000) as E.
    pose proof (Z.rem_bound_abs ((range c ÷ 2) * value) 1000) as R.
    lia. }
  change (2 ^ 31) with 2147483648. nia.
Qed.

(** * Further properties of the controller *)

(** ** Speeds computed from a Twist message *)

Lemma _smoothing_cases (speed : Z) :
  _smoothing speed = 0 \/ _smoothing speed = 1000.
Proof.
  unfold _smoothing, cos_PI_times.
  destruct (Z.even ((1000 - speed) ÷ 1000)); [right|left]; reflexivity.
Qed.

Lemma dir_of_cases (d : Q) : dir_of d = 1 \/ dir_of d = -1.
Proof. unfold dir_of. destruct (0 <? Qnum d); auto. Qed.


(** X2.  In ackerman mode only [speed[0]] is written, and for every message
    it is 0, 1000 or -1000. *)
Theorem ackerman_speed_values (msg : geometry_msgs.Twist) :
  exists v,
    fst (twist_speeds MODE_ACKERMAN msg) = [Some v; None; None; None] /\
    (v = 0 \/ v = 1000 \/ v = -1000).
Proof.
  unfold twist_speeds. cbv zeta.
  set (tx := _smoothing (_abs (double_to_int (geometry_msgs.x (geometry_msgs.linear msg))))).
  set (dx := dir_of (geometry_msgs.x (geometry_msgs.linear msg))).
  exists (tx * dx). split; [reflexivity|].
  destruct (_smoothing_cases
              (_abs (double_to_int (geometry_msgs.x (geometry_msgs.linear msg)))))
    as [H|H];
    destruct (dir_of_cases (geometry_msgs.x (geometry_msgs.linear msg))) as [D|D];
    unfold tx, dx; rewrite H, D; auto.
Qed.

(** X3.  In mecanum mode all four speeds are written and, for every message,
    each has a magnitude between 1000 and 2000: no wheel is ever given a
    speed below full scale. *)
Theorem mecanum_speed_bounds (msg : geometry_msgs.Twist) :
  exists v0 v1 v2 v3,
    fst (twist_speeds MODE_MECANUM msg) = [Some v0; Some v1; Some v2; Some v3] /\
    1000 <= Z.abs v0 <= 2000 /\ 1000 <= Z.abs v1 <= 2000 /\
    1000 <= Z.abs v2 <= 2000 /\ 1000 <= Z.abs v3 <= 2000.
Proof.
  unfold twist_speeds. cbv zeta. rewrite mecanum_speeds.
  do 4 eexists. split; [reflexivity|].
  rewrite !_absmax_1000.
  destruct (_smoothing_cases
              (_abs (double_to_int (geometry_msgs.x (geometry_msgs.linear msg)))))
    as [X|X];
    destruct (_smoothing_cases
                (_abs (double_to_int (geometry_msgs.z (geometry_msgs.angular msg)))))
      as [R|R];
    destruct (dir_of_cases (geometry_msgs.x (geometry_msgs.linear msg))) as [DX|DX];
    destruct (dir_of_cases (geometry_msgs.y (geometry_msgs.linear msg))) as [DY|DY];
    rewrite X, R, DX, DY; vm_compute; intuition discriminate.
Qed.

(** X4.  The speeds depend on linear.x, on angular.z and on the sign of
    linear.y only: the size of linear.y (and linear.z, angular.x, angular.y)
    is never read. *)
Theorem twist_speeds_inputs (mode : Z) (m1 m2 : geometry_msgs.Twist) :
  geometry_msgs.x (geometry_msgs.linear m1)
    = geometry_msgs.x (geometry_msgs.linear m2) ->
  geometry_msgs.z (geometry_msgs.angular m1)
    = geometry_msgs.z (geometry_msgs.angular m2) ->
  (0 < Qnum (geometry_msgs.y (geometry_msgs.linear m1))
   <-> 0 < Qnum (geometry_msgs.y (geometry_msgs.linear m2))) ->
  twist_speeds mode m1 = twist_speeds mode m2.
Proof.
  intros Hx Hz Hy. unfold twist_speeds. cbv zeta. rewrite Hx, Hz.
  replace (dir_of (geometry_msgs.y (geometry_msgs.linear m1)))
    with (dir_of (geometry_msgs.y (geometry_msgs.linear m2))); [reflexivity|].
  unfold dir_of.
  destruct (Z.ltb_spec 0 (Qnum (geometry_msgs.y (geometry_msgs.linear m1)))),
    (Z.ltb_spec 0 (Qnum (geometry_msgs.y (geometry_msgs.linear m2))));
    reflexivity || lia.
Qed.

Lemma twist_speeds_inputs_witness :
  let m1 := geometry_msgs.mkTwist (geometry_msgs.mkVector3 1000 (-1) 7)
                                  (geometry_msgs.mkVector3 3 4 500) in
  let m2 := geometry_msgs.mkTwist (geometry_msgs.mkVector3 1000 (-900) 0)
                                  (geometry_msgs.mkVector3 0 0 500) in
  geometry_msgs.x (geometry_msgs.linear m1)
    = geometry_msgs.x (geometry_msgs.linear m2) /\
  geometry_msgs.z (geometry_msgs.angular m1)
    = geometry_msgs.z (geometry_msgs.angular m2) /\
  (0 < Qnum (geometry_msgs.y (geometry_msgs.linear m1))
   <-> 0 < Qnum (geometry_msgs.y (geometry_msgs.linear m2))) /\
  twist_speeds MODE_MECANUM m1 = twist_speeds MODE_MECANUM m2.
Proof.
  intros m1 m2.
  assert (Hx : geometry_msgs.x (geometry_msgs.linear m1)
               = geometry_msgs.x (geometry_msgs.linear m2)) by reflexivity.
  assert (Hz : geometry_msgs.z (geometry_msgs.angular m1)
               = geometry_msgs.z (geometry_msgs.angular m2)) by reflexivity.
  assert (Hy : 0 < Qnum (geometry_msgs.y (geometry_msgs.linear m1))
               <-> 0 < Qnum (geometry_msgs.y (geometry_msgs.linear m2)))
    by (simpl; lia).
  repeat (split; [assumption|]).
  exact (twist_speeds_inputs MODE_MECANUM m1 m2 Hx Hz Hy).
Defined.

(** X5.  In differential mode a rotation that is not positive gives the same
    speed to both sides. *)
Theorem differential_nonpositive_rotation (msg : geometry_msgs.Twist) :
  Qnum (geometry_msgs.z (geometry_msgs.angular msg)) <= 0 ->
  exists v,
    fst (twist_speeds MODE_DIFFERENTIAL msg) = [Some v; Some v; None; None].
Proof.
  intros Hz. unfold twist_speeds. cbv zeta. rewrite differential_speeds.
  replace (dir_of (geometry_msgs.z (geometry_msgs.angular msg))) with (-1).
  - eexists. reflexivity.
  - unfold dir_of.
    destruct (Z.ltb_spec 0 (Qnum (geometry_msgs.z (geometry_msgs.angular msg))));
      [lia|reflexivity].
Qed.

Lemma differential_nonpositive_rotation_witness :
  Qnum (geometry_msgs.z (geometry_msgs.angular (twist 1000 0 (-1000)))) <= 0 /\
  exists v,
    fst (twist_speeds MODE_DIFFERENTIAL (twist 1000 0 (-1000)))
    = [Some v; Some v; None; None].
Proof.
  assert (H : Qnum (geometry_msgs.z (geometry_msgs.angular (twist 1000 0 (-1000)))) <= 0)
    by (simpl; lia).
  split; [exact H|]. exact (differential_nonpositive_rotation _ H).
Defined.

(** ** Pulse writes *)

Lemma written_bus_writes (reg value : Z) (s : state) :
  bus_writes (trace (written reg value s))
  = (u8 reg, u8 value) :: bus_writes (trace s).
Proof.
  unfold written, report. destruct (0 >? world s (clock s)); reflexivity.
Qed.

Lemma written_clock (reg value : Z) (s : state) :
  clock (written reg value s) = S (clock s) /\
  world (written reg value s) = world s /\
  _controller_io_handle (written reg value s) = _controller_io_handle s /\
  slave_selections (trace (written reg value s)) = slave_selections (trace s).
Proof.
  unfold written, report. destruct (0 >? world s (clock s)); repeat split.
Qed.

Lemma written_same_globals (reg value : Z) (s : state) :
  same_globals s (written reg value s).
Proof.
  unfold same_globals.
  destruct (written_globals reg value s) as (? & ? & ? & ? & ?).
  destruct (written_clock reg value s) as (? & ? & ? & ?).
  repeat split; assumption.
Qed.

Lemma same_globals_refl (s : state) : same_globals s s.
Proof. unfold same_globals. repeat split. Qed.

Lemma same_globals_trans (s1 s2 s3 : state) :
  same_globals s1 s2 -> same_globals s2 s3 -> same_globals s1 s3.
Proof. unfold same_globals. intuition congruence. Qed.

(** The two bytes of a pulse value give the value back. *)
Lemma pulse_bytes (v : Z) :
  0 <= v < 65536 -> Z.land v 255 + 256 * u8 (Z.shiftr v 8) = v.
Proof.
  intros Hv. unfold u8.
  change 255 with (Z.ones 8). rewrite !Z.land_ones by lia.
  rewrite Z.shiftr_div_pow2 by lia. change (2 ^ 8) with 256.
  rewrite (Z.mod_small (v / 256)).
  - pose proof (Z.div_mod v 256). lia.
  - split; [apply Z.div_pos; lia|]. apply Z.div_lt_upper_bound; lia.
Qed.

(** X6.  With a valid active board and servo number, [_set_pwm_interval]
    returns after exactly four register writes, to the registers
    6 + 4 (servo - 1) .. 9 + 4 (servo - 1), all in 6..69, carrying the low and
    high bytes of start and end; no global variable changes; and for values
    below 65536 the two bytes give the value back. *)
Theorem set_pwm_interval_writes (s : state) (servo start end_ : Z) :
  1 <= _active_board s <= 62 ->
  1 <= servo <= 16 ->
  exists s',
    _set_pwm_interval servo start end_ s = Ret tt s' /\
    bus_writes (trace s')
    = [(9 + 4 * (servo - 1), u8 (Z.shiftr end_ 8));
       (8 + 4 * (servo - 1), Z.land end_ 255);
       (7 + 4 * (servo - 1), u8 (Z.shiftr start 8));
       (6 + 4 * (servo - 1), Z.land start 255)] ++ bus_writes (trace s) /\
    6 <= 6 + 4 * (servo - 1) /\ 9 + 4 * (servo - 1) <= 69 /\
    clock s' = (clock s + 4)%nat /\
    same_globals s s' /\
    (0 <= start < 65536 ->
     Z.land start 255 + 256 * u8 (Z.shiftr start 8) = start) /\
    (0 <= end_ < 65536 ->
     Z.land end_ 255 + 256 * u8 (Z.shiftr end_ 8) = end_).
Proof.
  intros Hb Hs.
  assert (Hu : forall k, 6 <= k <= 9 -> u8 (k + 4 * (servo - 1)) = k + 4 * (servo - 1)).
  { intros k Hk. unfold u8. change 255 with (Z.ones 8).
    rewrite Z.land_ones by lia. apply Z.mod_small. change (2 ^ 8) with 256. lia. }
  assert (Hl : forall v, u8 (Z.land v 255) = Z.land v 255).
  { intros v. unfold u8. rewrite <- Z.land_assoc. reflexivity. }
  unfold _set_pwm_interval, bind at 1, gets at 1.
  replace ((_active_board s <? 1) || (_active_board s >? 62)) with false
    by (destruct (Z.ltb_spec (_active_board s) 1),
          (Z.gtb_spec (_active_board s) 62); simpl; lia || reflexivity).
  replace ((servo <? 1) || (servo >? 16)) with false
    by (destruct (Z.ltb_spec servo 1), (Z.gtb_spec servo 16);
        simpl; lia || reflexivity).
  cbv zeta. unfold bind. rewrite !write_or_report_run.
  eexists. split; [reflexivity|].
  rewrite !written_bus_writes.
  unfold __CHANNEL_ON_L, __CHANNEL_ON_H, __CHANNEL_OFF_L, __CHANNEL_OFF_H.
  rewrite !Hu, !Hl by lia.
  split; [rewrite (Z.add_comm 9), (Z.add_comm 8), (Z.add_comm 7), (Z.add_comm 6);
          rewrite !(Z.add_comm (4 * (servo - 1))); reflexivity|].
  split; [lia|]. split; [lia|].
  split.
  { repeat match goal with
           | |- context [clock (written ?r ?v ?t)] =>
               rewrite (proj1 (written_clock r v t))
           end. lia. }
  split.
  { repeat (eapply same_globals_trans; [|apply written_same_globals]).
    apply same_globals_refl. }
  split; apply pulse_bytes.
Qed.

Lemma set_pwm_interval_writes_witness :
  1 <= _active_board booted <= 62 /\ 1 <= 3 <= 16 /\
  exists s',
    _set_pwm_interval 3 0 350 booted = Ret tt s' /\
    bus_writes (trace s')
    = [(17, 1); (16, 94); (15, 0); (14, 0)] ++ bus_writes (trace booted).
Proof.
  assert (Hb : 1 <= _active_board booted <= 62) by (vm_compute; split; discriminate).
  assert (Hs : 1 <= 3 <= 16) by lia.
  split; [exact Hb|]. split; [exact Hs|].
  destruct (set_pwm_interval_writes booted 3 0 350 Hb Hs) as (s' & Hrun & Hw & _).
  exists s'. split; [exact Hrun|exact Hw].
Defined.

(** ** The proportional path on a channel that can be read *)

Lemma proportional_run (s : state) (servo value : Z)
    (row : list servo_config) (configp : servo_config) :
  1 <= _active_board s ->
  _servo_configs s !! Z.to_nat (_active_board s - 1) = Some row ->
  1 <= servo ->
  row !! Z.to_nat (servo - 1) = Some configp ->
  -1000 <= value <= 1000 ->
  _set_pwm_interval_proportional servo value s
  = (if (center configp <? 0) || (range configp <? 0) then
       log (ROS_ERROR (Missing_servo_configuration servo))
     else if (pos configp value <? 0) || (pos configp value >? 4096) then
       log (ROS_ERROR (Invalid_computed_position servo (pos configp value)))
     else
       _set_pwm_interval servo 0 (pos configp value);;
       log (ROS_INFO (Servo_proportional servo (pos configp value)))) s.
Proof.
  intros Hb Hrow Hs Hcfg Hv. unfold _set_pwm_interval_proportional.
  rewrite servo_guard_false.
  replace ((value <? -1000) || (value >? 1000)) with false
    by (destruct (Z.ltb_spec value (-1000)), (Z.gtb_spec value 1000);
        simpl; lia || reflexivity).
  unfold bind at 1, gets at 1. unfold bind at 1.
  rewrite (servo_config_at_lookup s _ _ row configp) by (assumption || lia).
  reflexivity.
Qed.

Lemma half_range_quotient (h value : Z) :
  0 <= h -> -1000 <= value <= 1000 -> - h <= (h * value) ÷ 1000 <= h.
Proof.
  intros Hh Hv. split.
  - replace (- h) with ((- h * 1000) ÷ 1000) by (apply Z.quot_mul; lia).
    apply Z.quot_le_mono; nia.
  - replace h with ((h * 1000) ÷ 1000) at 2 by (apply Z.quot_mul; lia).
    apply Z.quot_le_mono; nia.
Qed.

(** X7.  Value 0 maps to the center whatever the range and direction, and the
    conversion is symmetric about the center: the positions of [value] and
    [- value] lie at the same distance on either side of it. *)
Theorem pos_symmetric (c : servo_config) (value : Z) :
  pos c 0 = center c /\
  pos c (- value) - center c = - (pos c value - center c).
Proof.
  unfold pos. split.
  - rewrite Z.mul_0_r, Z.quot_0_l by lia. lia.
  - rewrite Z.mul_opp_r, Z.quot_opp_l by lia. lia.
Qed.

(** X8.  For a range that is not negative, a direction of 1 or -1 and a value
    in -1000..1000 the position stays within half the range of the center. *)
Theorem pos_window (c : servo_config) (value : Z) :
  0 <= range c ->
  direction c = 1 \/ direction c = -1 ->
  -1000 <= value <= 1000 ->
  center c - range c ÷ 2 <= pos c value <= center c + range c ÷ 2.
Proof.
  intros Hr Hd Hv. unfold pos.
  assert (Hh : 0 <= range c ÷ 2) by (apply Z.quot_pos; lia).
  pose proof (half_range_quotient (range c ÷ 2) value Hh Hv).
  destruct Hd as [-> | ->]; lia.
Qed.

Lemma pos_window_witness :
  let c := mk_servo_config 336 96 (-1) 0 in
  0 <= range c /\ (direction c = 1 \/ direction c = -1) /\
  -1000 <= 999 <= 1000 /\
  center c - range c ÷ 2 <= pos c 999 <= center c + range c ÷ 2.
Proof.
  intros c.
  assert (Hr : 0 <= range c) by (simpl; lia).
  assert (Hd : direction c = 1 \/ direction c = -1) by (right; reflexivity).
  assert (Hv : -1000 <= 999 <= 1000) by lia.
  split; [exact Hr|]. split; [exact Hd|]. split; [exact Hv|].
  exact (pos_window c 999 Hr Hd Hv).
Defined.

(** X9.  With direction 1 and a range that is not negative the position does
    not decrease when the value grows; with direction -1 it does not
    increase. *)
Theorem pos_monotone (c : servo_config) (v w : Z) :
  0 <= range c -> v <= w ->
  (direction c = 1 -> pos c v <= pos c w) /\
  (direction c = -1 -> pos c w <= pos c v).
Proof.
  intros Hr Hvw. unfold pos.
  assert (Hh : 0 <= range c ÷ 2) by (apply Z.quot_pos; lia).
  assert (Hq : (range c ÷ 2 * v) ÷ 1000 <= (range c ÷ 2 * w) ÷ 1000)
    by (apply Z.quot_le_mono; nia).
  split; intros ->; lia.
Qed.

Lemma pos_monotone_witness :
  let c := mk_servo_config 336 96 1 0 in
  0 <= range c /\ -500 <= 250 /\
  (direction c = 1 -> pos c (-500) <= pos c 250) /\
  (direction c = -1 -> pos c 250 <= pos c (-500)).
Proof.
  intros c.
  assert (Hr : 0 <= range c) by (simpl; lia).
  assert (Hv : -500 <= 250) by lia.
  split; [exact Hr|]. split; [exact Hv|].
  exact (pos_monotone c (-500) 250 Hr Hv).
Defined.

(** X10.  A channel that passed the tests of [config_servos] with a range
    that is not negative and a direction of 1 or -1 never gets the
    computed-position error: every value in -1000..1000 reaches the pulse
    write, with an end tick in 0..4096. *)
Theorem calibrated_channel_accepted (s : state) (servo value : Z)
    (row : list servo_config) (c : servo_config) :
  1 <= _active_board s ->
  _servo_configs s !! Z.to_nat (_active_board s - 1) = Some row ->
  1 <= servo ->
  row !! Z.to_nat (servo - 1) = Some c ->
  0 <= center c - range c ÷ 2 -> range c ÷ 2 + center c <= 4096 ->
  0 <= range c ->
  direction c = 1 \/ direction c = -1 ->
  -1000 <= value <= 1000 ->
  0 <= pos c value <= 4096 /\
  _set_pwm_interval_proportional servo value s
  = (_set_pwm_interval servo 0 (pos c value);;
     log (ROS_INFO (Servo_proportional servo (pos c value)))) s.
Proof.
  intros Hb Hrow Hs Hc Hlo Hhi Hr Hd Hv.
  pose proof (pos_window_bounds := half_range_quotient (range c ÷ 2) value).
  assert (Hh : 0 <= range c ÷ 2) by (apply Z.quot_pos; lia).
  assert (Hp : 0 <= pos c value <= 4096).
  { unfold pos. specialize (pos_window_bounds Hh Hv).
    destruct Hd as [-> | ->]; lia. }
  split; [exact Hp|].
  rewrite (proportional_run s servo value row c) by assumption.
  replace ((center c <? 0) || (range c <? 0)) with false
    by (destruct (Z.ltb_spec (center c) 0), (Z.ltb_spec (range c) 0);
        simpl; lia || reflexivity).
  replace ((pos c value <? 0) || (pos c value >? 4096)) with false
    by (destruct (Z.ltb_spec (pos c value) 0), (Z.gtb_spec (pos c value) 4096);
        simpl; lia || reflexivity).
  reflexivity.
Qed.

Lemma calibrated_channel_accepted_witness :
  let row := <[0%nat := mk_servo_config 336 96 1 0]> (replicate 16 unconfigured) in
  let c := mk_servo_config 336 96 1 0 in
  (1 <= _active_board configured /\
   _servo_configs configured !! Z.to_nat (_active_board configured - 1) = Some row /\
   1 <= 1 /\ row !! Z.to_nat (1 - 1) = Some c /\
   0 <= center c - range c ÷ 2 /\ range c ÷ 2 + center c <= 4096 /\
   0 <= range c /\ (direction c = 1 \/ direction c = -1) /\
   -1000 <= -250 <= 1000) /\
  0 <= pos c (-250) <= 4096 /\
  _set_pwm_interval_proportional 1 (-250) configured
  = (_set_pwm_interval 1 0 (pos c (-250));;
     log (ROS_INFO (Servo_proportional 1 (pos c (-250))))) configured.
Proof.
  intros row c.
  assert (H1 : 1 <= _active_board configured) by (vm_compute; discriminate).
  assert (H2 : _servo_configs configured !! Z.to_nat (_active_board configured - 1)
               = Some row) by reflexivity.
  assert (H3 : 1 <= 1) by lia.
  assert (H4 : row !! Z.to_nat (1 - 1) = Some c) by reflexivity.
  assert (H5 : 0 <= center c - range c ÷ 2) by (vm_compute; discriminate).
  assert (H6 : range c ÷ 2 + center c <= 4096) by (vm_compute; discriminate).
  assert (H7 : 0 <= range c) by (vm_compute; discriminate).
  assert (H8 : direction c = 1 \/ direction c = -1) by (left; reflexivity).
  assert (H9 : -1000 <= -250 <= 1000) by lia.
  split; [repeat (split; [assumption|]); assumption|].
  exact (calibrated_channel_accepted configured 1 (-250) row c
           H1 H2 H3 H4 H5 H6 H7 H8 H9).
Defined.

(** X11.  On a channel whose center or range is negative (as [_init] leaves
    every channel) a proportional command with a value in range is refused
    with the missing-configuration error and nothing is written. *)
Theorem unconfigured_channel_refused (s : state) (servo value : Z)
    (row : list servo_config) (c : servo_config) :
  1 <= _active_board s ->
  _servo_configs s !! Z.to_nat (_active_board s - 1) = Some row ->
  1 <= servo ->
  row !! Z.to_nat (servo - 1) = Some c ->
  center c < 0 \/ range c < 0 ->
  -1000 <= value <= 1000 ->
  _set_pwm_interval_proportional servo value s
  = Ret tt (emit (ROS_ERROR (Missing_servo_configuration servo)) s).
Proof.
  intros Hb Hrow Hs Hc Hneg Hv.
  rewrite (proportional_run s servo value row c) by assumption.
  replace ((center c <? 0) || (range c <? 0)) with true
    by (destruct (Z.ltb_spec (center c) 0), (Z.ltb_spec (range c) 0);
        simpl; lia || reflexivity).
  reflexivity.
Qed.

Lemma unconfigured_channel_refused_witness :
  (1 <= _active_board booted /\
   _servo_configs booted !! Z.to_nat (_active_board booted - 1)
     = Some (replicate 16 unconfigured) /\
   1 <= 5 /\
   replicate 16 unconfigured !! Z.to_nat (5 - 1) = Some unconfigured /\
   (center unconfigured < 0 \/ range unconfigured < 0) /\
   -1000 <= 100 <= 1000) /\
  _set_pwm_interval_proportional 5 100 booted
  = Ret tt (emit (ROS_ERROR (Missing_servo_configuration 5)) booted).
Proof.
  assert (H1 : 1 <= _active_board booted) by (vm_compute; discriminate).
  assert (H2 : _servo_configs booted !! Z.to_nat (_active_board booted - 1)
               = Some (replicate 16 unconfigured)) by reflexivity.
  assert (H3 : 1 <= 5) by lia.
  assert (H4 : replicate 16 unconfigured !! Z.to_nat (5 - 1) = Some unconfigured)
    by reflexivity.
  assert (H5 : center unconfigured < 0 \/ range unconfigured < 0)
    by (left; reflexivity).
  assert (H6 : -1000 <= 100 <= 1000) by lia.
  split; [repeat (split; [assumption|]); assumption|].
  exact (unconfigured_channel_refused booted 5 100 (replicate 16 unconfigured)
           unconfigured H1 H2 H3 H4 H5 H6).
Defined.

(** ** The configuration services keep the tables in shape *)

Lemma wp_for_each_res {A} (I : state -> Prop) (l : list A)
    (body : A -> Z -> M Z) (error : Z) (s : state) :
  I s ->
  (forall a e s', In a l -> I s' -> wp (body a e) (fun _ => I) s') ->
  wp (for_each_res l body error) (fun _ => I) s.
Proof.
  revert error s. induction l as [|a l IH]; intros error s Hs Hbody.
  - apply wp_ret. exact Hs.
  - simpl. apply wp_bind.
    apply (wp_mono _ (fun _ => I)); [apply Hbody; [left; reflexivity|exact Hs]|].
    intros e s' Hs'. apply IH; [exact Hs'|].
    intros b e' s'' Hb. apply Hbody. right. exact Hb.
Qed.

Lemma tables_ok_lookup (s : state) (board channel : Z) :
  tables_ok s -> 0 <= board < 62 -> 0 <= channel < 16 ->
  exists row c,
    _servo_configs s !! Z.to_nat board = Some row /\
    row !! Z.to_nat channel = Some c /\
    length row = 16%nat /\ Forall calibrated row /\ calibrated c.
Proof.
  intros (_ & Hlen & Hall) Hb Hc.
  destruct (lookup_lt_is_Some_2 (_servo_configs s) (Z.to_nat board))
    as [row Hrow]; [lia|].
  destruct (proj1 (Forall_lookup _ _) Hall _ _ Hrow) as [Hrl Hrc].
  destruct (lookup_lt_is_Some_2 row (Z.to_nat channel)) as [c Hc']; [lia|].
  exists row, c. repeat split; try assumption.
  exact (proj1 (Forall_lookup _ _) Hrc _ _ Hc').
Qed.

(** Writing a calibrated channel into the table keeps the table in shape and
    changes nothing else. *)
Lemma wp_update_servo_config (s : state) (board channel : Z)
    (f : servo_config -> servo_config) (Q : unit -> state -> Prop) :
  tables_ok s -> 0 <= board < 62 -> 0 <= channel < 16 ->
  (forall row c,
     _servo_configs s !! Z.to_nat board = Some row ->
     row !! Z.to_nat channel = Some c ->
     Q tt (set_servo_configs
             (<[Z.to_nat board := <[Z.to_nat channel := f c]> row]>
                (_servo_configs s)) s)) ->
  wp (update_servo_config board channel f) Q s.
Proof.
  intros Hok Hb Hc HQ.
  destruct (tables_ok_lookup s board channel Hok Hb Hc)
    as (row & c & Hrow & Hcfg & _).
  eexists tt, _. split.
  - apply (update_servo_config_run s board channel f row c); assumption || lia.
  - apply HQ; assumption.
Qed.

Lemma tables_ok_insert (s : state) (board channel : Z)
    (row : list servo_config) (c : servo_config) :
  tables_ok s ->
  _servo_configs s !! Z.to_nat board = Some row ->
  calibrated c ->
  tables_ok (set_servo_configs
               (<[Z.to_nat board := <[Z.to_nat channel := c]> row]>
                  (_servo_configs s)) s).
Proof.
  intros (Hb & Hlen & Hall) Hrow Hc.
  destruct (proj1 (Forall_lookup _ _) Hall _ _ Hrow) as [Hrl Hrc].
  unfold tables_ok. cbn [_pwm_boards _servo_configs set_servo_configs].
  split; [exact Hb|]. split; [rewrite length_insert; exact Hlen|].
  apply Forall_insert; [exact Hall|].
  split; [rewrite length_insert; exact Hrl|].
  apply Forall_insert; assumption.
Qed.

(** X12.  From a state whose tables are in shape [config_servos] always
    returns, makes no kernel call, keeps the tables in shape (every channel
    is still as [_init] left it or has a center in 0..4096 with both sums
    with half the range in 0..4096), and changes no other global. *)
Theorem config_servos_keeps_tables (s : state) (servos : list ServoConfig.t) :
  tables_ok s ->
  exists error s',
    config_servos servos s = Ret error s' /\
    tables_ok s' /\
    clock s' = clock s /\
    _pwm_boards s' = _pwm_boards s /\
    _active_board s' = _active_board s /\
    _pwm_frequency s' = _pwm_frequency s /\
    _active_drive s' = _active_drive s.
Proof.
  intros Hok.
  set (I := fun s' : state =>
              tables_ok s' /\ clock s' = clock s /\
              _pwm_boards s' = _pwm_boards s /\
              _active_board s' = _active_board s /\
              _pwm_frequency s' = _pwm_frequency s /\
              _active_drive s' = _active_drive s).
  assert (HI : I s) by (unfold I; split; [exact Hok|repeat split]).
  assert (Hlog : forall e s', I s' -> I (emit e s')).
  { intros e s' (Ht & Hrest). split; [exact Ht|exact Hrest]. }
  assert (H : wp (config_servos servos) (fun _ => I) s).
  { unfold config_servos. apply wp_bind, wp_gets.
    destruct (Z.ltb_spec (_active_board s) 1) as [|Hlo];
      [apply wp_bind, wp_log, wp_ret, Hlog, HI|].
    destruct (Z.gtb_spec (_active_board s) 62) as [|Hhi];
      [apply wp_bind, wp_log, wp_ret, Hlog, HI|].
    cbn [orb]. apply wp_for_each_res; [exact HI|].
    intros req e s' _ Hs'. cbv zeta.
    destruct (Z.ltb_spec (ServoConfig.servo req) 1) as [|Hs1];
      [apply wp_bind, wp_log, wp_ret, Hlog, Hs'|].
    destruct (Z.gtb_spec (ServoConfig.servo req) 16) as [|Hs2];
      [apply wp_bind, wp_log, wp_ret, Hlog, Hs'|].
    cbn [orb].
    destruct (Z.ltb_spec (ServoConfig.center req) 0) as [|Hc1];
      [apply wp_bind, wp_log, wp_ret, Hlog, Hs'|].
    destruct (Z.gtb_spec (ServoConfig.center req) 4096) as [|Hc2];
      [apply wp_bind, wp_log, wp_ret, Hlog, Hs'|].
    cbn [orb].
    destruct (Z.ltb_spec (ServoConfig.center req - ServoConfig.range req ÷ 2) 0)
      as [|Hr1]; [apply wp_bind, wp_log, wp_ret, Hlog, Hs'|].
    destruct (Z.gtb_spec (ServoConfig.range req ÷ 2 + ServoConfig.center req) 4096)
      as [|Hr2]; [apply wp_bind, wp_log, wp_ret, Hlog, Hs'|].
    cbn [orb]. apply wp_bind, wp_gets. apply wp_bind.
    destruct Hs' as (Ht & Hck & Hpb & Hab & Hrest).
    apply wp_update_servo_config; [exact Ht|lia|lia|].
    intros row c Hrow Hc. apply wp_ret.
    split; [|repeat split; tauto].
    apply tables_ok_insert; [exact Ht|exact Hrow|].
    right. cbn [center range]. lia. }
  destruct H as (e & s' & Hrun & HI').
  exists e, s'. split; [exact Hrun|exact HI'].
Qed.

Lemma config_servos_keeps_tables_witness :
  tables_ok booted /\
  exists error s',
    config_servos [ServoConfig.mk 1 336 (-100) 1; ServoConfig.mk 9 5000 0 1]
                  booted = Ret error s' /\
    tables_ok s' /\ clock s' = clock booted.
Proof.
  assert (H : tables_ok booted).
  { split; [reflexivity|]. split; [reflexivity|].
    change (_servo_configs booted) with (replicate 62 (replicate 16 unconfigured)).
    apply Forall_replicate. split; [reflexivity|].
    apply Forall_replicate. left. split; reflexivity. }
  split; [exact H|].
  destruct (config_servos_keeps_tables booted
              [ServoConfig.mk 1 336 (-100) 1; ServoConfig.mk 9 5000 0 1] H)
    as (e & s' & Hrun & Hok & Hclock & _).
  exists e, s'. split; [exact Hrun|]. split; [exact Hok|exact Hclock].
Defined.

(** ** The topics leave the globals alone *)

Section KeepsGlobals.
Context {A B : Type}.

Lemma keeps_ret (a : A) : keeps_globals (ret a).
Proof. intros s. apply same_globals_refl. Qed.

Lemma keeps_undefined (u : undefined_behaviour) : keeps_globals (@undefined A u).
Proof. intros s. apply same_globals_refl. Qed.

Lemma keeps_gets (f : state -> A) : keeps_globals (gets f).
Proof. intros s. apply same_globals_refl. Qed.

Lemma keeps_bind (m : M A) (k : A -> M B) :
  keeps_globals m -> (forall a, keeps_globals (k a)) -> keeps_globals (bind m k).
Proof.
  intros Hm Hk s. unfold bind. specialize (Hm s).
  destruct (m s) as [a s1|u s1]; [|exact Hm].
  eapply same_globals_trans; [exact Hm|apply Hk].
Qed.

Lemma keeps_index (name : string) (a : list A) (i : Z) :
  keeps_globals (index name a i).
Proof.
  unfold index. destruct (i <? 0); [apply keeps_undefined|].
  destruct (a !! Z.to_nat i); [apply keeps_ret|apply keeps_undefined].
Qed.

Lemma keeps_for_each (l : list A) (body : A -> M unit) :
  (forall a, keeps_globals (body a)) -> keeps_globals (for_each l body).
Proof.
  intros Hbody. induction l as [|a l IH]; simpl.
  - intros s. apply same_globals_refl.
  - intros s. unfold bind. specialize (Hbody a s).
    destruct (body a s) as [[] s1|u s1]; [|exact Hbody].
    eapply same_globals_trans; [exact Hbody|apply IH].
Qed.
End KeepsGlobals.

Lemma keeps_log (e : event) : keeps_globals (log e).
Proof. intros s. unfold same_globals. repeat split. Qed.

Lemma keeps_write_or_report (reg value : Z) :
  keeps_globals (write_or_report reg value).
Proof.
  intros s. rewrite write_or_report_run. apply written_same_globals.
Qed.

Lemma keeps_initialised (name : string) (a : list (option Z)) (i : Z) :
  keeps_globals (initialised name a i).
Proof.
  unfold initialised. destruct (a !! Z.to_nat i) as [[v|]|];
    intros s; apply same_globals_refl.
Qed.

Lemma keeps_servo_config_at (board channel : Z) :
  keeps_globals (servo_config_at board channel).
Proof.
  unfold servo_config_at.
  apply keeps_bind; [apply keeps_gets|intros configs].
  apply keeps_bind; [apply keeps_index|intros row]. apply keeps_index.
Qed.

Lemma keeps__set_pwm_interval (servo start end_ : Z) :
  keeps_globals (_set_pwm_interval servo start end_).
Proof.
  unfold _set_pwm_interval.
  apply keeps_bind; [apply keeps_gets|intros active].
  destruct ((active <? 1) || (active >? 62)); [apply keeps_log|].
  destruct ((servo <? 1) || (servo >? 16)); [apply keeps_log|].
  cbv zeta.
  repeat (apply keeps_bind; [apply keeps_write_or_report|intros _]).
  apply keeps_write_or_report.
Qed.

Lemma keeps__set_pwm_interval_proportional (servo value : Z) :
  keeps_globals (_set_pwm_interval_proportional servo value).
Proof.
  unfold _set_pwm_interval_proportional.
  destruct ((servo <? 1) && (servo >? 16)); [apply keeps_log|].
  destruct ((value <? -1000) || (value >? 1000)); [apply keeps_log|].
  apply keeps_bind; [apply keeps_gets|intros active].
  apply keeps_bind; [apply keeps_servo_config_at|intros c].
  destruct ((center c <? 0) || (range c <? 0)); [apply keeps_log|].
  cbv zeta.
  destruct ((pos c value <? 0) || (pos c value >? 4096)); [apply keeps_log|].
  apply keeps_bind; [apply keeps__set_pwm_interval|intros _]. apply keeps_log.
Qed.

Lemma keeps_drive_servo (speed : list (option Z)) (i k : Z) :
  keeps_globals (drive_servo speed i k).
Proof.
  unfold drive_servo.
  apply keeps_bind; [apply keeps_initialised|intros v].
  apply keeps__set_pwm_interval_proportional.
Qed.

(** X13.  The three topic handlers never change a global variable (the
    calibration table, the board table, the active board, the frequency, the
    drive mode), whatever the message and however the run ends. *)
Theorem topics_keep_globals (s : state) (servos : list Servo.t)
    (msg : geometry_msgs.Twist) :
  same_globals s (final_state (servos_absolute servos s)) /\
  same_globals s (final_state (servos_proportional servos s)) /\
  same_globals s (final_state (servos_drive msg s)).
Proof.
  split; [|split].
  - revert s. change (keeps_globals (servos_absolute servos)).
    unfold servos_absolute. apply keeps_for_each. intros sp. cbv zeta.
    destruct ((Servo.servo sp <? 1) && (Servo.servo sp >? 16)); [apply keeps_log|].
    destruct ((Servo.value sp <? 0) || (Servo.value sp >? 4096)); [apply keeps_log|].
    apply keeps_bind; [apply keeps__set_pwm_interval|intros _]. apply keeps_log.
  - revert s. change (keeps_globals (servos_proportional servos)).
    unfold servos_proportional. apply keeps_for_each. intros sp.
    apply keeps__set_pwm_interval_proportional.
  - revert s. change (keeps_globals (servos_drive msg)).
    unfold servos_drive.
    apply keeps_bind; [apply keeps_gets|intros drive].
    destruct (mode drive =? MODE_UNDEFINED); [apply keeps_log|].
    destruct ((mode drive <? MODE_UNDEFINED) || (mode drive >=? MODE_INVALID));
      [apply keeps_log|].
    destruct (twist_speeds (mode drive) msg) as [speed line].
    apply keeps_bind;
      [destruct line; [apply keeps_log|apply keeps_ret]|intros _].
    apply keeps_for_each. intros i.
    apply keeps_bind; [apply keeps_gets|intros active].
    repeat (apply keeps_bind; [apply keeps_servo_config_at|intros ?c];
            apply keeps_bind;
              [match goal with
               | |- keeps_globals (if ?b then _ else _) =>
                   destruct b; [apply keeps_drive_servo|apply keeps_ret]
               end|intros _]).
    apply keeps_bind; [apply keeps_servo_config_at|intros c3].
    match goal with
    | |- keeps_globals (if ?b then _ else _) =>
        destruct b; [apply keeps_drive_servo|apply keeps_ret]
    end.
Qed.


(** ** Drive positions and calibration *)

Lemma map_insert_same {A B} (f : A -> B) (l : list A) (i : nat) (x y : A) :
  l !! i = Some y -> f x = f y -> map f (<[i := x]> l) = map f l.
Proof.
  revert i. induction l as [|a l IH]; intros [|i] Hy Hf; simpl in *;
    try discriminate.
  - injection Hy as ->. rewrite Hf. reflexivity.
  - rewrite (IH i Hy Hf). reflexivity.
Qed.

Lemma calibration_of_position (s : state) (board channel : nat) (position : Z)
    (row : list servo_config) (c : servo_config) :
  _servo_configs s !! board = Some row ->
  row !! channel = Some c ->
  calibration_of
    (set_servo_configs
       (<[board := <[channel := mk_servo_config (center c) (range c)
                                   (direction c) position]> row]>
          (_servo_configs s)) s)
  = calibration_of s.
Proof.
  intros Hrow Hc. unfold calibration_of. cbn [_servo_configs set_servo_configs].
  apply (map_insert_same _ _ _ _ row); [exact Hrow|].
  apply (map_insert_same _ _ _ _ c); [exact Hc|reflexivity].
Qed.

Lemma set_drive_mode_keeps_calibration (s : state) (m : Z)
    (req : DriveMode.Request) :
  tables_ok s ->
  wp (set_drive_mode m req)
     (fun _ s' =>
        tables_ok s' /\ calibration_of s' = calibration_of s /\
        clock s' = clock s /\ _pwm_boards s' = _pwm_boards s /\
        _active_board s' = _active_board s /\
        _pwm_frequency s' = _pwm_frequency s) s.
Proof.
  intros Hok.
  set (I := fun s' : state =>
              tables_ok s' /\ calibration_of s' = calibration_of s /\
              clock s' = clock s /\ _pwm_boards s' = _pwm_boards s /\
              _active_board s' = _active_board s /\
              _pwm_frequency s' = _pwm_frequency s).
  assert (HI : I s) by (unfold I; split; [exact Hok|repeat split]).
  assert (Hlog : forall e s', I s' -> I (emit e s')).
  { intros e s' (Ht & Hrest). split; [exact Ht|exact Hrest]. }
  assert (Hdrive : forall d s', I s' -> I (set_active_drive d s')).
  { intros d s' (Ht & Hrest). split; [exact Ht|exact Hrest]. }
  change (wp (set_drive_mode m req) (fun _ => I) s).
  unfold set_drive_mode. apply wp_bind, wp_gets. apply wp_bind, wp_modify.
  cbv zeta. destruct (Qle_bool (DriveMode.scale req) 0);
    [apply wp_bind, wp_log, wp_ret, Hlog, Hdrive, HI|].
  apply wp_bind, wp_modify. apply wp_for_each_res; [apply Hdrive, Hdrive, HI|].
  intros sp e s' _ Hs'. cbv zeta. apply wp_bind, wp_gets.
  destruct (Z.ltb_spec (_active_board s') 1) as [|Hlo];
    [apply wp_bind, wp_log, wp_ret, Hlog, Hs'|].
  destruct (Z.gtb_spec (_active_board s') 62) as [|Hhi];
    [apply wp_bind, wp_log, wp_ret, Hlog, Hs'|].
  cbn [orb].
  destruct (Z.ltb_spec (Servo.servo sp) 1) as [|Hs1];
    [apply wp_bind, wp_log, wp_ret, Hlog, Hs'|].
  destruct (Z.gtb_spec (Servo.servo sp) 16) as [|Hs2];
    [apply wp_bind, wp_log, wp_ret, Hlog, Hs'|].
  cbn [orb].
  destruct ((Servo.value sp <? POSITION_UNDEFINED)
            || (Servo.value sp >? POSITION_LEFTREAR));
    [apply wp_bind, wp_log, wp_ret, Hlog, Hs'|].
  apply wp_bind.
  destruct Hs' as (Ht & Hcal & Hrest).
  apply wp_update_servo_config; [exact Ht|lia|lia|].
  intros row c Hrow Hc. apply wp_ret.
  destruct (tables_ok_lookup s' (_active_board s' - 1) (Servo.servo sp - 1) Ht)
    as (row' & c' & Hrow' & Hc' & _ & _ & Hcal'); [lia|lia|].
  assert (row' = row) by congruence. subst row'.
  assert (c' = c) by congruence. subst c'.
  split; [|split; [|exact Hrest]].
  - apply tables_ok_insert; [exact Ht|exact Hrow|].
    destruct Hcal' as [Hu|Hc'']; [left|right]; exact Hu || exact Hc''.
  - rewrite (calibration_of_position s' _ _ _ row c Hrow Hc). exact Hcal.
Qed.

(** X15.  From a state whose tables are in shape [config_drive_mode] always
    returns, makes no kernel call, keeps the tables in shape and leaves the
    center, range and direction of every channel on every board as they
    were: whatever the request, only the drive mode and drive positions can
    change. *)
Theorem config_drive_mode_keeps_calibration (s : state)
    (req : DriveMode.Request) :
  tables_ok s ->
  exists error s',
    config_drive_mode req s = Ret error s' /\
    tables_ok s' /\ calibration_of s' = calibration_of s /\
    clock s' = clock s /\ _pwm_boards s' = _pwm_boards s /\
    _active_board s' = _active_board s /\
    _pwm_frequency s' = _pwm_frequency s.
Proof.
  intros Hok. unfold config_drive_mode. cbv zeta.
  repeat match goal with
         | |- context [if ?b then set_drive_mode ?m req else _] =>
             destruct b;
             [destruct (set_drive_mode_keeps_calibration s m req Hok)
                as (e & s' & Hrun & HI); exists e, s'; split; assumption|]
         end.
  eexists _, _. split; [reflexivity|].
  split; [exact Hok|repeat split].
Qed.

Lemma config_drive_mode_keeps_calibration_witness :
  tables_ok configured /\
  exists error s',
    config_drive_mode
      (DriveMode.mk "differential" 1 [Servo.mk 1 1; Servo.mk 2 2; Servo.mk 0 9])
      configured = Ret error s' /\
    tables_ok s' /\ calibration_of s' = calibration_of configured.
Proof.
  assert (H : tables_ok configured).
  { split; [reflexivity|]. split; [reflexivity|].
    change (_servo_configs configured)
      with (<[0%nat := <[0%nat := mk_servo_config 336 96 1 0]>
                         (replicate 16 unconfigured)]>
              (replicate 62 (replicate 16 unconfigured))).
    apply Forall_insert;
      [apply Forall_replicate; split; [reflexivity|];
       apply Forall_replicate; left; split; reflexivity|].
    split; [reflexivity|].
    apply Forall_insert;
      [apply Forall_replicate; left; split; reflexivity|].
    right. vm_compute. intuition discriminate. }
  split; [exact H|].
  destruct (config_drive_mode_keeps_calibration configured
              (DriveMode.mk "differential" 1
                 [Servo.mk 1 1; Servo.mk 2 2; Servo.mk 0 9]) H)
    as (e & s' & Hrun & Hok & Hcal & _).
  exists e, s'. split; [exact Hrun|]. split; [exact Hok|exact Hcal].
Defined.

Lemma servo_config_at_insert (s : state) (board channel : Z)
    (row : list servo_config) (c c' : servo_config) :
  0 <= board -> _servo_configs s !! Z.to_nat board = Some row ->
  0 <= channel -> row !! Z.to_nat channel = Some c ->
  let s' := set_servo_configs
              (<[Z.to_nat board := <[Z.to_nat channel := c']> row]>
                 (_servo_configs s)) s in
  servo_config_at board channel s' = Ret c' s'.
Proof.
  intros Hb Hrow Hc Hcfg s'.
  apply (servo_config_at_lookup s' board channel
           (<[Z.to_nat channel := c']> row) c'); try assumption.
  - unfold s'. cbn [_servo_configs set_servo_configs].
    apply list_lookup_insert_eq. eapply lookup_lt_Some. exact Hrow.
  - apply list_lookup_insert_eq. eapply lookup_lt_Some. exact Hcfg.
Qed.

(** X16.  An entry that passes the tests of [config_servos] can be read back
    from the table, and its drive position is [POSITION_UNDEFINED] whatever
    the channel was assigned before: calibrating a servo takes it out of the
    drive. *)
Theorem config_servos_round_trip (s : state) (req : ServoConfig.t)
    (row : list servo_config) (c : servo_config) :
  1 <= _active_board s <= 62 ->
  _servo_configs s !! Z.to_nat (_active_board s - 1) = Some row ->
  1 <= ServoConfig.servo req <= 16 ->
  row !! Z.to_nat (ServoConfig.servo req - 1) = Some c ->
  0 <= ServoConfig.center req <= 4096 ->
  0 <= ServoConfig.center req - ServoConfig.range req ÷ 2 ->
  ServoConfig.range req ÷ 2 + ServoConfig.center req <= 4096 ->
  exists s',
    config_servos [req] s = Ret 0 s' /\
    servo_config_at (_active_board s' - 1) (ServoConfig.servo req - 1) s'
    = Ret (mk_servo_config (ServoConfig.center req) (ServoConfig.range req)
             (ServoConfig.direction req) POSITION_UNDEFINED) s'.
Proof.
  intros Hb Hrow Hs Hc Hcen Hlo Hhi.
  eexists. split.
  - apply (config_servos_entry s req row c); assumption.
  - cbn [_active_board set_servo_configs].
    apply (servo_config_at_insert s _ _ row c); assumption || lia.
Qed.

Lemma config_servos_round_trip_witness :
  let req := ServoConfig.mk 1 300 200 (-1) in
  let row := <[0%nat := mk_servo_config 336 96 1 1]> (replicate 16 unconfigured) in
  (1 <= _active_board mecanum_robot <= 62 /\
   _servo_configs mecanum_robot !! Z.to_nat (_active_board mecanum_robot - 1)
     = Some row /\
   1 <= ServoConfig.servo req <= 16 /\
   row !! Z.to_nat (ServoConfig.servo req - 1)
     = Some (mk_servo_config 336 96 1 1) /\
   0 <= ServoConfig.center req <= 4096 /\
   0 <= ServoConfig.center req - ServoConfig.range req ÷ 2 /\
   ServoConfig.range req ÷ 2 + ServoConfig.center req <= 4096) /\
  exists s',
    config_servos [req] mecanum_robot = Ret 0 s' /\
    servo_config_at (_active_board s' - 1) (ServoConfig.servo req - 1) s'
    = Ret (mk_servo_config 300 200 (-1) POSITION_UNDEFINED) s'.
Proof.
  intros req row.
  assert (H1 : 1 <= _active_board mecanum_robot <= 62)
    by (vm_compute; split; discriminate).
  assert (H2 : _servo_configs mecanum_robot
                 !! Z.to_nat (_active_board mecanum_robot - 1) = Some row)
    by reflexivity.
  assert (H3 : 1 <= ServoConfig.servo req <= 16) by (simpl; lia).
  assert (H4 : row !! Z.to_nat (ServoConfig.servo req - 1)
               = Some (mk_servo_config 336 96 1 1)) by reflexivity.
  assert (H5 : 0 <= ServoConfig.center req <= 4096) by (simpl; lia).
  assert (H6 : 0 <= ServoConfig.center req - ServoConfig.range req ÷ 2)
    by (vm_compute; discriminate).
  assert (H7 : ServoConfig.range req ÷ 2 + ServoConfig.center req <= 4096)
    by (vm_compute; discriminate).
  split; [repeat (split; [assumption|]); assumption|].
  exact (config_servos_round_trip mecanum_robot req row _ H1 H2 H3 H4 H5 H6 H7).
Defined.

(** X17.  What [config_servos] answers for one refused entry: an invalid
    servo number comes back as [res.error] (so servo 0 is answered with 0),
    while an entry refused for its center or for its range/center
    combination leaves [res.error] at 0; in each case only a line is logged. *)
Theorem config_servos_error_code (s : state) (req : ServoConfig.t) :
  1 <= _active_board s <= 62 ->
  let servo := ServoConfig.servo req in
  let center := ServoConfig.center req in
  let half := ServoConfig.range req ÷ 2 in
  (servo < 1 \/ 16 < servo ->
   config_servos [req] s
   = Ret servo (emit (ROS_ERROR (Invalid_servo_number servo)) s)) /\
  (1 <= servo <= 16 -> center < 0 \/ 4096 < center ->
   config_servos [req] s
   = Ret 0 (emit (ROS_ERROR (Invalid_center_value center)) s)) /\
  (1 <= servo <= 16 -> 0 <= center <= 4096 ->
   center - half < 0 \/ 4096 < half + center ->
   config_servos [req] s
   = Ret 0 (emit (ROS_ERROR (Invalid_range_center_combination center half)) s)).
Proof.
  intros Hb servo center half.
  assert (Hrun : forall k : M Z,
            (active <- gets _active_board;;
             if (active <? 1) || (active >? 62)
             then log (ROS_ERROR (Invalid_board_number active));; ret (-1)
             else k) s = k s).
  { intros k. unfold bind at 1, gets at 1.
    replace ((_active_board s <? 1) || (_active_board s >? 62)) with false
      by (destruct (Z.ltb_spec (_active_board s) 1),
            (Z.gtb_spec (_active_board s) 62); simpl; lia || reflexivity).
    reflexivity. }
  unfold config_servos. rewrite Hrun. unfold for_each_res. cbv zeta.
  fold servo center half.
  split; [|split].
  - intros Hs.
    replace ((servo <? 1) || (servo >? 16)) with true
      by (destruct (Z.ltb_spec servo 1), (Z.gtb_spec servo 16);
          simpl; lia || reflexivity).
    reflexivity.
  - intros Hs Hc.
    replace ((servo <? 1) || (servo >? 16)) with false
      by (destruct (Z.ltb_spec servo 1), (Z.gtb_spec servo 16);
          simpl; lia || reflexivity).
    replace ((center <? 0) || (center >? 4096)) with true
      by (destruct (Z.ltb_spec center 0), (Z.gtb_spec center 4096);
          simpl; lia || reflexivity).
    reflexivity.
  - intros Hs Hc Hr.
    replace ((servo <? 1) || (servo >? 16)) with false
      by (destruct (Z.ltb_spec servo 1), (Z.gtb_spec servo 16);
          simpl; lia || reflexivity).
    replace ((center <? 0) || (center >? 4096)) with false
      by (destruct (Z.ltb_spec center 0), (Z.gtb_spec center 4096);
          simpl; lia || reflexivity).
    replace ((center - half <? 0) || (half + center >? 4096)) with true
      by (destruct (Z.ltb_spec (center - half) 0), (Z.gtb_spec (half + center) 4096);
          simpl; lia || reflexivity).
    reflexivity.
Qed.

Lemma config_servos_error_code_witness :
  1 <= _active_board booted <= 62 /\
  config_servos [ServoConfig.mk 0 336 96 1] booted
  = Ret 0 (emit (ROS_ERROR (Invalid_servo_number 0)) booted) /\
  config_servos [ServoConfig.mk 1 5000 96 1] booted
  = Ret 0 (emit (ROS_ERROR (Invalid_center_value 5000)) booted).
Proof.
  assert (H : 1 <= _active_board booted <= 62) by (vm_compute; split; discriminate).
  split; [exact H|]. split.
  - apply (proj1 (config_servos_error_code booted (ServoConfig.mk 0 336 96 1) H)).
    left. simpl. lia.
  - apply (proj1 (proj2 (config_servos_error_code booted
                           (ServoConfig.mk 1 5000 96 1) H))); simpl; lia.
Defined.

Lemma strcmp_zero (a b : string) : (0 =? strcmp a b) = true -> c_str a = c_str b.
Proof.
  unfold strcmp. intros H. apply String.compare_eq_iff.
  destruct (String.compare (c_str a) (c_str b)); [reflexivity|discriminate..].
Qed.

(** X18.  With a recognised name, a positive scale, a valid board and servo
    and a position in 0..3, [config_drive_mode] stores the mode and the
    scale, and the channel reads back with the new drive position and its
    old center, range and direction. *)
Theorem config_drive_mode_round_trip (s : state) (name : string) (m : Z)
    (factor : Q) (servo position : Z) (row : list servo_config)
    (c : servo_config) :
  In (name, m)
     [("ackerman"%string, MODE_ACKERMAN);
      ("differential"%string, MODE_DIFFERENTIAL);
      ("mecanum"%string, MODE_MECANUM)] ->
  (0 < factor)%Q ->
  1 <= _active_board s <= 62 ->
  _servo_configs s !! Z.to_nat (_active_board s - 1) = Some row ->
  1 <= servo <= 16 ->
  row !! Z.to_nat (servo - 1) = Some c ->
  0 <= position <= 3 ->
  exists s',
    config_drive_mode (DriveMode.mk name factor [Servo.mk servo position]) s
    = Ret 0 s' /\
    _active_drive s' = mk_drive_mode m factor /\
    servo_config_at (_active_board s' - 1) (servo - 1) s'
    = Ret (mk_servo_config (center c) (range c) (direction c) position) s'.
Proof.
  intros Hname Hf Hb Hrow Hs Hc Hp.
  assert (Hscale : Qle_bool factor 0 = false).
  { apply not_true_is_false. intros H.
    apply Qle_bool_iff in H. apply (Qlt_not_le _ _ Hf H). }
  set (s1 := set_active_drive (mk_drive_mode m factor) s).
  set (s2 := set_servo_configs
               (<[Z.to_nat (_active_board s - 1) :=
                    <[Z.to_nat (servo - 1) :=
                        mk_servo_config (center c) (range c) (direction c)
                          position]> row]> (_servo_configs s)) s1).
  assert (Hrun : set_drive_mode m
                   (DriveMode.mk name factor [Servo.mk servo position]) s
                 = Ret 0 s2).
  { unfold set_drive_mode, for_each_res.
    unfold bind at 1, gets at 1. unfold bind at 1, modify at 1.
    cbn [DriveMode.scale DriveMode.servos Servo.servo Servo.value].
    rewrite Hscale.
    unfold bind at 1, modify at 1. unfold bind at 1.
    unfold bind at 1, gets at 1. cbn [_active_board set_active_drive].
    replace ((_active_board s <? 1) || (_active_board s >? 62)) with false
      by (destruct (Z.ltb_spec (_active_board s) 1),
            (Z.gtb_spec (_active_board s) 62); simpl; lia || reflexivity).
    replace ((servo <? 1) || (servo >? 16)) with false
      by (destruct (Z.ltb_spec servo 1), (Z.gtb_spec servo 16);
          simpl; lia || reflexivity).
    rewrite (proj2 (position_guard position)) by lia.
    unfold bind at 1.
    rewrite (update_servo_config_run _ _ _ _ row c)
      by (assumption || lia).
    reflexivity. }
  exists s2. split; [|split].
  - unfold config_drive_mode. cbv zeta. cbn [DriveMode.mode].
    simpl in Hname.
    destruct Hname as [H|[H|[H|[]]]]; injection H as <- <-; exact Hrun.
  - reflexivity.
  - unfold s2, s1. cbn [_active_board set_servo_configs set_active_drive].
    apply (servo_config_at_insert
             (set_active_drive (mk_drive_mode m factor) s) _ _ row c);
      assumption || lia.
Qed.

Lemma config_drive_mode_round_trip_witness :
  let row := <[0%nat := mk_servo_config 336 96 1 0]> (replicate 16 unconfigured) in
  (In ("differential"%string, MODE_DIFFERENTIAL)
      [("ackerman"%string, MODE_ACKERMAN);
       ("differential"%string, MODE_DIFFERENTIAL);
       ("mecanum"%string, MODE_MECANUM)] /\
   (0 < 1)%Q /\
   1 <= _active_board configured <= 62 /\
   _servo_configs configured !! Z.to_nat (_active_board configured - 1) = Some row /\
   1 <= 1 <= 16 /\
   row !! Z.to_nat (1 - 1) = Some (mk_servo_config 336 96 1 0) /\
   0 <= 2 <= 3) /\
  exists s',
    config_drive_mode (DriveMode.mk "differential" 1 [Servo.mk 1 2]) configured
    = Ret 0 s' /\
    _active_drive s' = mk_drive_mode MODE_DIFFERENTIAL 1 /\
    servo_config_at (_active_board s' - 1) (1 - 1) s'
    = Ret (mk_servo_config 336 96 1 2) s'.
Proof.
  intros row.
  assert (H1 : In ("differential"%string, MODE_DIFFERENTIAL)
                 [("ackerman"%string, MODE_ACKERMAN);
                  ("differential"%string, MODE_DIFFERENTIAL);
                  ("mecanum"%string, MODE_MECANUM)]) by (simpl; tauto).
  assert (H2 : (0 < 1)%Q) by reflexivity.
  assert (H3 : 1 <= _active_board configured <= 62)
    by (vm_compute; split; discriminate).
  assert (H4 : _servo_configs configured
                 !! Z.to_nat (_active_board configured - 1) = Some row)
    by reflexivity.
  assert (H5 : 1 <= 1 <= 16) by lia.
  assert (H6 : row !! Z.to_nat (1 - 1) = Some (mk_servo_config 336 96 1 0))
    by reflexivity.
  assert (H7 : 0 <= 2 <= 3) by lia.
  split; [repeat (split; [assumption|]); assumption|].
  exact (config_drive_mode_round_trip configured "differential"
           MODE_DIFFERENTIAL 1 1 2 row _ H1 H2 H3 H4 H5 H6 H7).
Defined.

(** X19.  A mode name that, read up to its first NUL, is none of
    "ackerman", "differential", "mecanum" (the comparison is case
    sensitive) is answered with -1 and one error line; the stored drive mode,
    the scale and the table are untouched. *)
Theorem config_drive_mode_unknown_name (s : state) (req : DriveMode.Request) :
  c_str (DriveMode.mode req) <> "ackerman"%string ->
  c_str (DriveMode.mode req) <> "differential"%string ->
  c_str (DriveMode.mode req) <> "mecanum"%string ->
  config_drive_mode req s
  = Ret (-1) (emit (ROS_ERROR (Invalid_drive_mode (DriveMode.mode req))) s).
Proof.
  intros Ha Hd Hm. unfold config_drive_mode. cbv zeta.
  assert (Hno : forall lit : string,
            c_str lit = lit -> c_str (DriveMode.mode req) <> lit ->
            (0 =? strcmp (DriveMode.mode req) lit) = false).
  { intros lit Hlit Hne. apply not_true_is_false. intros H.
    apply strcmp_zero in H. rewrite Hlit in H. exact (Hne H). }
  rewrite (Hno "ackerman"%string), (Hno "differential"%string),
    (Hno "mecanum"%string) by (reflexivity || assumption).
  reflexivity.
Qed.

Lemma config_drive_mode_unknown_name_witness :
  let req := DriveMode.mk "Mecanum" 1 [Servo.mk 1 1] in
  c_str (DriveMode.mode req) <> "ackerman"%string /\
  c_str (DriveMode.mode req) <> "differential"%string /\
  c_str (DriveMode.mode req) <> "mecanum"%string /\
  config_drive_mode req booted
  = Ret (-1) (emit (ROS_ERROR (Invalid_drive_mode "Mecanum")) booted).
Proof.
  intros req.
  assert (H1 : c_str (DriveMode.mode req) <> "ackerman"%string)
    by (vm_compute; discriminate).
  assert (H2 : c_str (DriveMode.mode req) <> "differential"%string)
    by (vm_compute; discriminate).
  assert (H3 : c_str (DriveMode.mode req) <> "mecanum"%string)
    by (vm_compute; discriminate).
  repeat (split; [assumption|]).
  exact (config_drive_mode_unknown_name booted req H1 H2 H3).
Defined.

(** ** Selecting a board *)

Lemma board_guard (board : Z) :
  1 <= board <= 62 -> (board <? 1) || (board >? 62) = false.
Proof.
  intros H. destruct (Z.ltb_spec board 1), (Z.gtb_spec board 62);
    simpl; lia || reflexivity.
Qed.

Lemma _set_active_board_same (s : state) (board : Z) :
  1 <= board <= 62 -> _active_board s = board ->
  _set_active_board board s = Ret tt s.
Proof.
  intros Hb Ha. unfold _set_active_board. rewrite board_guard by assumption.
  unfold bind, gets. rewrite Ha, Z.eqb_refl. reflexivity.
Qed.

(** X20.  When the slave selection fails, the board is recorded as active
    all the same (nothing else changes and no register is written), and
    selecting the same board again does nothing: the [ioctl] is not tried a
    second time. *)
Theorem failed_selection_sticks (s : state) (board : Z) :
  1 <= board <= 62 ->
  _active_board s <> board ->
  world s (clock s) < 0 ->
  exists s',
    _set_active_board board s = Ret tt s' /\
    _active_board s' = board /\
    _pwm_boards s' = _pwm_boards s /\
    bus_writes (trace s') = bus_writes (trace s) /\
    clock s' = S (clock s) /\
    _set_active_board board s' = Ret tt s'.
Proof.
  intros Hb Ha Hr.
  set (s' := emit (ROS_FATAL (_BASE_ADDR + (board - 1)))
               (emit (ioctl_I2C_SLAVE (_BASE_ADDR + (board - 1)) (world s (clock s)))
                  (tick (set_active_board board s)))).
  assert (Hrun : _set_active_board board s = Ret tt s').
  { unfold _set_active_board. rewrite board_guard by assumption.
    unfold bind at 1, gets at 1.
    replace (_active_board s =? board) with false
      by (symmetry; apply Z.eqb_neq; exact Ha).
    cbn [negb]. unfold bind at 1, modify at 1. cbv zeta.
    unfold bind at 1, ioctl_slave, bind, kernel_call, log, modify, ret.
    cbn [world clock set_active_board tick emit].
    replace (0 >? world s (clock s)) with true
      by (destruct (Z.gtb_spec 0 (world s (clock s))); lia || reflexivity).
    reflexivity. }
  exists s'. split; [exact Hrun|]. repeat split.
  apply _set_active_board_same; [exact Hb|reflexivity].
Qed.

Lemma failed_selection_sticks_witness :
  let s := initial_state (fun _ => -1) in
  1 <= 1 <= 62 /\ _active_board s <> 1 /\ world s (clock s) < 0 /\
  exists s',
    _set_active_board 1 s = Ret tt s' /\
    _active_board s' = 1 /\
    _set_active_board 1 s' = Ret tt s'.
Proof.
  intros s.
  assert (H1 : 1 <= 1 <= 62) by lia.
  assert (H2 : _active_board s <> 1) by (vm_compute; discriminate).
  assert (H3 : world s (clock s) < 0) by reflexivity.
  split; [exact H1|]. split; [exact H2|]. split; [exact H3|].
  destruct (failed_selection_sticks s 1 H1 H2 H3)
    as (s' & Hrun & Ha & _ & _ & _ & Hagain).
  exists s'. split; [exact Hrun|]. split; [exact Ha|exact Hagain].
Defined.

(** X21.  Selecting another board that has been woken up before costs one
    kernel call, the [ioctl] for address 0x40 + (board - 1): no register is
    read or written and the board table is as before. *)
Theorem woken_board_selection (s : state) (board seen : Z) :
  1 <= board <= 62 ->
  _active_board s <> board ->
  0 <= world s (clock s) ->
  _pwm_boards s !! Z.to_nat (board - 1) = Some seen ->
  0 <= seen ->
  _set_active_board board s
  = Ret tt (emit (ioctl_I2C_SLAVE (64 + (board - 1)) (world s (clock s)))
              (tick (set_active_board board s))).
Proof.
  intros Hb Ha Hr Hseen Hv.
  unfold _set_active_board. rewrite board_guard by assumption.
  unfold bind at 1, gets at 1.
  replace (_active_board s =? board) with false
    by (symmetry; apply Z.eqb_neq; exact Ha).
  cbn [negb]. unfold bind at 1, modify at 1. cbv zeta.
  unfold bind at 1, ioctl_slave, bind at 1, kernel_call.
  cbn [world clock set_active_board tick].
  unfold bind at 1, log at 1, modify at 1. unfold ret at 1.
  replace (0 >? world s (clock s)) with false
    by (destruct (Z.gtb_spec 0 (world s (clock s))); lia || reflexivity).
  unfold bind at 1, gets at 1. cbn [_pwm_boards emit tick].
  unfold bind at 1.
  rewrite (index_lookup _ _ _ seen) by (assumption || lia).
  replace (seen <? 0) with false by (symmetry; apply Z.ltb_ge; exact Hv).
  reflexivity.
Qed.

Lemma woken_board_selection_witness :
  let s := final_state (set_pwm_active_board 2 booted) in
  1 <= 1 <= 62 /\ _active_board s <> 1 /\ 0 <= world s (clock s) /\
  _pwm_boards s !! Z.to_nat (1 - 1) = Some 1 /\ 0 <= 1 /\
  _set_active_board 1 s
  = Ret tt (emit (ioctl_I2C_SLAVE 64 0) (tick (set_active_board 1 s))).
Proof.
  intros s.
  assert (H1 : 1 <= 1 <= 62) by lia.
  assert (H2 : _active_board s <> 1) by (vm_compute; discriminate).
  assert (H3 : 0 <= world s (clock s)) by (vm_compute; discriminate).
  assert (H4 : _pwm_boards s !! Z.to_nat (1 - 1) = Some 1) by reflexivity.
  assert (H5 : 0 <= 1) by lia.
  repeat (split; [assumption|]).
  exact (woken_board_selection s 1 1 H1 H2 H3 H4 H5).
Defined.

Lemma written_world (reg value : Z) (s : state) :
  world (written reg value s) = world s.
Proof. apply written_clock. Qed.

Lemma written_clock_S (reg value : Z) (s : state) :
  clock (written reg value s) = S (clock s).
Proof. apply written_clock. Qed.

Lemma written_selections (reg value : Z) (s : state) :
  slave_selections (trace (written reg value s)) = slave_selections (trace s).
Proof. apply written_clock. Qed.

Lemma written_boards (reg value : Z) (s : state) :
  _pwm_boards (written reg value s) = _pwm_boards s.
Proof. apply written_globals. Qed.

Lemma written_active (reg value : Z) (s : state) :
  _active_board (written reg value s) = _active_board s.
Proof. apply written_globals. Qed.

Lemma written_frequency (reg value : Z) (s : state) :
  _pwm_frequency (written reg value s) = _pwm_frequency s.
Proof. apply written_globals. Qed.

Lemma written_configs (reg value : Z) (s : state) :
  _servo_configs (written reg value s) = _servo_configs s.
Proof. apply written_globals. Qed.

Lemma written_drive (reg value : Z) (s : state) :
  _active_drive (written reg value s) = _active_drive s.
Proof. apply written_globals. Qed.

(** After a write, replace the new state by a fresh one and keep, as
    hypotheses, what the write did to each observable of the state. *)
Ltac forget_step :=
  lazymatch goal with
  | |- context [written ?r ?v ?t] =>
      let Hw := fresh "Hworld" in
      let Hc := fresh "Hclock" in
      let Hs := fresh "Hsel" in
      let Hb := fresh "Hboards" in
      let Ha := fresh "Hactive" in
      let Hf := fresh "Hfreq" in
      let Hg := fresh "Hconfigs" in
      let Hd := fresh "Hdrive" in
      let Hbw := fresh "Hwrites" in
      let Hpw := fresh "Hprescale" in
      pose proof (written_world r v t) as Hw;
      pose proof (written_clock_S r v t) as Hc;
      pose proof (written_selections r v t) as Hs;
      pose proof (written_boards r v t) as Hb;
      pose proof (written_active r v t) as Ha;
      pose proof (written_frequency r v t) as Hf;
      pose proof (written_configs r v t) as Hg;
      pose proof (written_drive r v t) as Hd;
      pose proof (written_bus_writes r v t) as Hbw;
      pose proof (written_prescale_writes r v t) as Hpw;
      generalize dependent (written r v t); intros;
      cbn [world clock trace _pwm_boards _active_board _pwm_frequency
           _servo_configs _active_drive emit tick set_active_board
           set_pwm_boards set_pwm_frequency_var set_servo_configs
           set_active_drive bus_writes slave_selections prescale_writes]
        in Hw, Hc, Hs, Hb, Ha, Hf, Hg, Hd, Hbw, Hpw
  end.

Ltac write_step := apply wp_bind, wp_write_or_report; forget_step.

(** Rewrite an observable of a later state into the one of the state before. *)
Ltac chain :=
  repeat match goal with
         | H : ?l = _ |- context [?l] => rewrite H
         end.
Ltac last_write_step := apply wp_write_or_report; forget_step.

Ltac project :=
  cbn [world clock trace _pwm_boards _active_board _pwm_frequency
       _servo_configs _active_drive _controller_io_handle
       emit tick set_active_board set_pwm_boards set_pwm_frequency_var
       set_servo_configs set_active_drive
       bus_writes slave_selections prescale_writes] in *.

Lemma wp_unit (m : M unit) (P : state -> Prop) (s : state) :
  wp m (fun _ => P) s -> exists s', m s = Ret tt s' /\ P s'.
Proof. intros ([] & s' & Hrun & HP). exists s'. split; assumption. Qed.



(** ** Switching boards and frequencies through the services *)

(** Whatever the bus answers, a selection with a board number in 1..62
    records the board as active, keeps the size of the board table and writes
    nothing to the prescale register. *)
Lemma _set_active_board_effect (board : Z) (s : state) :
  length (_pwm_boards s) = 62%nat ->
  1 <= board <= 62 ->
  wp (_set_active_board board)
     (fun _ s' =>
        _active_board s' = board /\
        length (_pwm_boards s') = 62%nat /\
        _pwm_frequency s' = _pwm_frequency s /\
        _servo_configs s' = _servo_configs s /\
        _active_drive s' = _active_drive s /\
        prescale_writes (trace s') = prescale_writes (trace s)) s.
Proof.
  intros Hlen Hb. unfold _set_active_board. rewrite board_guard by assumption.
  apply wp_bind, wp_gets.
  destruct (Z.eqb_spec (_active_board s) board) as [Heq|Hne]; cbn [negb];
    [apply wp_ret; repeat split; assumption|].
  apply wp_bind, wp_modify. cbv zeta. apply wp_bind, wp_ioctl_slave.
  match goal with |- context [if ?b then _ else _] => destruct b end;
    [apply wp_log; repeat split; assumption|].
  apply wp_bind, wp_gets. cbn [_pwm_boards emit tick set_active_board].
  destruct (lookup_lt_is_Some_2 (_pwm_boards s) (Z.to_nat (board - 1)))
    as [seen Hseen]; [lia|].
  apply wp_bind, (wp_index _ _ _ seen); [lia|exact Hseen|].
  destruct (seen <? 0); [|apply wp_ret; repeat split; assumption].
  apply wp_bind, wp_modify.
  write_step. write_step.
  apply wp_bind, wp_log. apply wp_bind, wp_read. cbv zeta.
  write_step.
  apply wp_bind, wp_log.
  unfold _set_pwm_interval_all. apply wp_bind, wp_gets. project.
  replace (_active_board s2) with board by (chain; reflexivity).
  rewrite board_guard by assumption.
  write_step. write_step. write_step. last_write_step.
  repeat split; chain; try reflexivity.
  rewrite length_insert. exact Hlen.
Qed.

(** X23.  [set_pwm_active_board] always returns the board it made active:
    the requested one when it is in 1..62, board 1 otherwise.  It keeps the
    stored frequency (one of 12..1024, as [set_pwm_frequency] leaves it) and
    programs the prescale of that frequency again, even when the board does
    not change; the calibration table and the drive mode are untouched. *)
Theorem set_pwm_active_board_effect (s : state) (req_value : Z) :
  length (_pwm_boards s) = 62%nat ->
  12 <= _pwm_frequency s <= 1024 ->
  exists s',
    let board := if (req_value <? 1) || (req_value >? 62) then 1 else req_value in
    set_pwm_active_board req_value s = Ret board s' /\
    _active_board s' = board /\
    _pwm_frequency s' = _pwm_frequency s /\
    prescale_writes (trace s')
    = u8 (prescale (_pwm_frequency s)) :: prescale_writes (trace s) /\
    _servo_configs s' = _servo_configs s /\
    _active_drive s' = _active_drive s /\
    length (_pwm_boards s') = 62%nat.
Proof.
  intros Hlen _. cbv zeta.
  set (board := if (req_value <? 1) || (req_value >? 62) then 1 else req_value).
  assert (Hb : 1 <= board <= 62).
  { unfold board.
    destruct (Z.ltb_spec req_value 1), (Z.gtb_spec req_value 62); simpl; lia. }
  assert (H : wp (set_pwm_active_board req_value)
                (fun b s' =>
                   b = board /\ _active_board s' = board /\
                   _pwm_frequency s' = _pwm_frequency s /\
                   prescale_writes (trace s')
                   = u8 (prescale (_pwm_frequency s)) :: prescale_writes (trace s) /\
                   _servo_configs s' = _servo_configs s /\
                   _active_drive s' = _active_drive s /\
                   length (_pwm_boards s') = 62%nat) s).
  { unfold set_pwm_active_board. apply wp_bind.
    apply (wp_mono _ (fun b s1 => b = board /\
                                  prescale_writes (trace s1) = prescale_writes (trace s) /\
                                  same_globals s s1)).
    { fold board. destruct ((req_value <? 1) || (req_value >? 62)).
      - apply wp_bind, wp_log, wp_ret.
        split; [reflexivity|]. split; [reflexivity|]. repeat split.
      - apply wp_ret. split; [reflexivity|]. split; [reflexivity|].
        apply same_globals_refl. }
    intros b s1 (-> & Hp1 & Hc1 & Hb1 & _ & Ha1 & Hf1 & Hd1).
    apply wp_bind.
    eapply wp_mono;
      [apply (_set_active_board_effect board s1); [congruence|exact Hb]|].
    intros [] s2 (Ha2 & Hl2 & Hf2 & Hc2 & Hd2 & Hp2).
    apply wp_bind, wp_gets. apply wp_bind.
    eapply wp_mono; [apply _set_pwm_frequency_run|].
    intros [] s3 (Hf3 & Hp3 & _ & Hc3 & Hb3 & Ha3 & Hd3).
    apply wp_ret. repeat split; congruence. }
  destruct H as (b & s' & Hrun & -> & Hrest).
  exists s'. split; [exact Hrun|exact Hrest].
Qed.

Lemma set_pwm_active_board_effect_witness :
  length (_pwm_boards booted) = 62%nat /\
  12 <= _pwm_frequency booted <= 1024 /\
  exists s',
    set_pwm_active_board 99 booted = Ret 1 s' /\
    _active_board s' = 1 /\
    _pwm_frequency s' = 50 /\
    prescale_writes (trace s') = 121 :: prescale_writes (trace booted).
Proof.
  assert (H : length (_pwm_boards booted) = 62%nat) by reflexivity.
  assert (Hf0 : 12 <= _pwm_frequency booted <= 1024)
    by (vm_compute; split; discriminate).
  split; [exact H|]. split; [exact Hf0|].
  destruct (set_pwm_active_board_effect booted 99 H Hf0)
    as (s' & Hrun & Ha & Hf & Hp & _).
  exists s'. split; [exact Hrun|]. split; [exact Ha|].
  split; [exact Hf|exact Hp].
Defined.

(** X25.  For the frequencies the service accepts, the prescale fits the
    8-bit register only from 24 Hz on (it is then between 5 and 253); for
    12..23 Hz the computed prescale is above 255 and the register receives
    it less 256. *)
Theorem prescale_register (freq : Z) :
  12 <= freq <= 1024 ->
  (24 <= freq ->
   5 <= prescale freq <= 253 /\ u8 (prescale freq) = prescale freq) /\
  (freq <= 23 ->
   264 <= prescale freq <= 508 /\ u8 (prescale freq) = prescale freq - 256).
Proof.
  intros Hf.
  set (ok := fun f : Z =>
               let p := prescale f in
               if f <? 24
               then (264 <=? p) && (p <=? 508) && (u8 p =? p - 256)
               else (5 <=? p) && (p <=? 253) && (u8 p =? p)).
  assert (Hall : forallb ok (seqZ 12 1013) = true) by (vm_compute; reflexivity).
  assert (Hok : ok freq = true).
  { apply (proj1 (forallb_forall ok (seqZ 12 1013)) Hall).
    apply list_elem_of_In, elem_of_seqZ. lia. }
  unfold ok in Hok. cbv zeta in Hok.
  destruct (Z.ltb_spec freq 24);
    apply andb_prop in Hok; destruct Hok as [Hok H3];
    apply andb_prop in Hok; destruct Hok as [H1 H2];
    apply Z.leb_le in H1; apply Z.leb_le in H2; apply Z.eqb_eq in H3;
    split; intros; lia || (split; [lia|exact H3]).
Qed.

Lemma prescale_register_witness :
  12 <= 12 <= 1024 /\ prescale 12 = 508 /\ u8 (prescale 12) = 252.
Proof.
  assert (H : 12 <= 12 <= 1024) by lia.
  split; [exact H|].
  destruct (proj2 (prescale_register 12 H)) as [Hp Hu]; [lia|].
  split; [reflexivity|]. rewrite Hu. reflexivity.
Defined.

(** ** What [stop_servos] does on the bus *)

Lemma wp_for_each_app {A} (l1 l2 : list A) (body : A -> M unit)
    (Q : unit -> state -> Prop) (s : state) :
  wp (for_each l1 body) (fun _ s1 => wp (for_each l2 body) Q s1) s ->
  wp (for_each (l1 ++ l2) body) Q s.
Proof.
  revert s. induction l1 as [|a l1 IH]; intros s H.
  - destruct H as ([] & s1 & Hrun & H). injection Hrun as <-. exact H.
  - simpl in *. apply wp_bind.
    destruct H as ([] & s2 & Hrun & H). unfold bind in Hrun.
    destruct (body a s) as [[] s1|u s1] eqn:Hbody; [|discriminate].
    exists tt, s1. split; [exact Hbody|]. apply IH.
    exists tt, s2. split; assumption.
Qed.

(** A board seen before is selected without any register write and without a
    change of the board table; when it was not the active one, its address is
    the newest slave selection. *)
Lemma _set_active_board_seen_effect (board seen : Z) (s : state) :
  1 <= board <= 62 ->
  _pwm_boards s !! Z.to_nat (board - 1) = Some seen ->
  0 <= seen ->
  wp (_set_active_board board)
     (fun _ s' =>
        _active_board s' = board /\
        _pwm_boards s' = _pwm_boards s /\
        bus_writes (trace s') = bus_writes (trace s) /\
        _servo_configs s' = _servo_configs s /\
        (_active_board s = board ->
         slave_selections (trace s') = slave_selections (trace s)) /\
        (_active_board s <> board ->
         slave_selections (trace s')
         = (64 + (board - 1)) :: slave_selections (trace s))) s.
Proof.
  intros Hb Hseen Hv. unfold _set_active_board.
  rewrite board_guard by assumption. apply wp_bind, wp_gets.
  destruct (Z.eqb_spec (_active_board s) board) as [Heq|Hne]; cbn [negb];
    [apply wp_ret; repeat split; tauto|].
  apply wp_bind, wp_modify. cbv zeta. apply wp_bind, wp_ioctl_slave.
  match goal with |- context [if ?b then _ else _] => destruct b end;
    [apply wp_log; repeat split; tauto|].
  apply wp_bind, wp_gets. cbn [_pwm_boards emit tick set_active_board].
  apply wp_bind, (wp_index _ _ _ seen); [lia|exact Hseen|].
  replace (seen <? 0) with false by (symmetry; apply Z.ltb_ge; exact Hv).
  apply wp_ret. repeat split; tauto.
Qed.

Lemma _set_pwm_interval_all_zero_effect (s : state) :
  wp (_set_pwm_interval_all 0 0)
     (fun _ s' =>
        _active_board s' = _active_board s /\
        _pwm_boards s' = _pwm_boards s /\
        slave_selections (trace s') = slave_selections (trace s) /\
        _servo_configs s' = _servo_configs s /\
        exists new,
          bus_writes (trace s') = new ++ bus_writes (trace s) /\
          all_channels_zeroed new) s.
Proof.
  unfold _set_pwm_interval_all. apply wp_bind, wp_gets.
  destruct ((_active_board s <? 1) || (_active_board s >? 62)).
  - apply wp_log. repeat split. exists []. split; [reflexivity|constructor].
  - write_step. write_step. write_step. last_write_step.
    repeat split; chain; try reflexivity.
    exists [(253, 0); (252, 0); (251, 0); (250, 0)].
    split; [chain; reflexivity|].
    repeat constructor; simpl; lia.
Qed.

(** X26.  Whatever the bus answers, [stop_servos] wakes no board and writes
    nothing but zeros to the all-channel registers 250..253: no mode,
    prescale or per-channel register is touched, and the board table and the
    calibration table are as before. *)
Theorem stop_servos_only_zeroes (s : state) :
  length (_pwm_boards s) = 62%nat ->
  exists s' new,
    stop_servos s = Ret tt s' /\
    bus_writes (trace s') = new ++ bus_writes (trace s) /\
    all_channels_zeroed new /\
    _pwm_boards s' = _pwm_boards s /\
    _servo_configs s' = _servo_configs s.
Proof.
  intros Hlen.
  set (I := fun s1 : state =>
              (_pwm_boards s1 = _pwm_boards s /\
               _servo_configs s1 = _servo_configs s) /\
              exists new,
                bus_writes (trace s1) = new ++ bus_writes (trace s) /\
                all_channels_zeroed new).
  assert (HI : I s)
    by (split; [split; reflexivity|exists []; split; [reflexivity|constructor]]).
  assert (H : wp stop_servos (fun _ => I) s).
  { unfold stop_servos. apply wp_bind, wp_gets. apply wp_bind.
    eapply wp_mono.
    - apply (wp_for_each I); [exact HI|].
      intros i s1 Hi ((Hb1 & Hc1) & new1 & Hw1 & Hz1).
      apply list_elem_of_In, elem_of_seqZ in Hi.
      apply wp_bind, wp_gets.
      destruct (lookup_lt_is_Some_2 (_pwm_boards s1) (Z.to_nat i))
        as [seen Hseen]; [rewrite Hb1, Hlen; lia|].
      apply wp_bind, (wp_index _ _ _ seen); [lia|exact Hseen|].
      destruct (Z.gtb_spec seen 0) as [Hpos|Hnon];
        [|apply wp_ret; split;
          [split; assumption|exists new1; split; assumption]].
      apply wp_bind.
      eapply wp_mono;
        [apply (_set_active_board_seen_effect (i + 1) seen s1); try lia;
         replace (i + 1 - 1) with i by lia; exact Hseen|].
      intros [] s2 (_ & Hb2 & Hw2 & Hc2 & _).
      eapply wp_mono; [apply _set_pwm_interval_all_zero_effect|].
      intros [] s3 (_ & Hb3 & _ & Hc3 & new3 & Hw3 & Hz3).
      split; [split; congruence|].
      exists (new3 ++ new1). split.
      + rewrite Hw3, Hw2, Hw1, app_assoc. reflexivity.
      + apply Forall_app. split; assumption.
    - intros [] s1 ((Hb1 & Hc1) & new1 & Hw1 & Hz1). apply wp_modify.
      split; [split; assumption|]. exists new1. split; assumption. }
  destruct H as ([] & s' & Hrun & (Hb' & Hc') & new & Hw & Hz).
  exists s', new. repeat split; assumption.
Qed.

Lemma stop_servos_only_zeroes_witness :
  length (_pwm_boards two_boards) = 62%nat /\
  exists s' new,
    stop_servos two_boards = Ret tt s' /\
    bus_writes (trace s') = new ++ bus_writes (trace two_boards) /\
    all_channels_zeroed new /\
    _pwm_boards s' = _pwm_boards two_boards /\
    _servo_configs s' = _servo_configs two_boards.
Proof.
  assert (H : length (_pwm_boards two_boards) = 62%nat) by reflexivity.
  split; [exact H|]. exact (stop_servos_only_zeroes two_boards H).
Defined.

(** X27.  [stop_servos] restores the variable [_active_board] but not the
    bus: when the highest initialised board is not the active one, the newest
    slave selection after the call is the address of that highest board,
    while [_active_board] still names the board from before the call, so
    selecting that board again does nothing and the bus stays where it is. *)
Theorem stop_servos_leaves_bus_on_last_board (s : state) (last seen : Z) :
  length (_pwm_boards s) = 62%nat ->
  0 <= last < 62 ->
  _pwm_boards s !! Z.to_nat last = Some seen ->
  0 < seen ->
  (forall j w, last < j -> _pwm_boards s !! Z.to_nat j = Some w -> w <= 0) ->
  _active_board s <> last + 1 ->
  exists s',
    stop_servos s = Ret tt s' /\
    _active_board s' = _active_board s /\
    head (slave_selections (trace s')) = Some (64 + last) /\
    (1 <= _active_board s <= 62 ->
     _set_active_board (_active_board s) s' = Ret tt s').
Proof.
  intros Hlen Hlast Hseen Hpos Hhigher Hactive.
  set (body := fun i : Z =>
                 boards <- gets _pwm_boards;;
                 seen <- index "_pwm_boards" boards i;;
                 if seen >? 0 then
                   _set_active_board (i + 1);; _set_pwm_interval_all 0 0
                 else ret tt).
  set (I1 := fun s1 : state =>
               _pwm_boards s1 = _pwm_boards s /\ _active_board s1 <> last + 1).
  set (I2 := fun s1 : state =>
               _pwm_boards s1 = _pwm_boards s /\
               head (slave_selections (trace s1)) = Some (64 + last)).
  assert (Hsplit : seqZ 0 62 = seqZ 0 last ++ [last] ++ seqZ (last + 1) (61 - last)).
  { replace 62 with (last + (62 - last)) at 1 by lia.
    rewrite seqZ_app by lia. f_equal.
    rewrite (seqZ_cons (0 + last)) by lia. simpl. f_equal. f_equal; lia. }
  assert (Hprefix : wp (for_each (seqZ 0 last) body) (fun _ => I1) s).
  { apply (wp_for_each I1); [split; [reflexivity|exact Hactive]|].
    intros i s1 Hi (Hb1 & Ha1).
    apply list_elem_of_In, elem_of_seqZ in Hi.
    unfold body. apply wp_bind, wp_gets.
    destruct (lookup_lt_is_Some_2 (_pwm_boards s1) (Z.to_nat i))
      as [w Hw]; [rewrite Hb1, Hlen; lia|].
    apply wp_bind, (wp_index _ _ _ w); [lia|exact Hw|].
    destruct (Z.gtb_spec w 0) as [Hwpos|Hwnon];
      [|apply wp_ret; split; assumption].
    apply wp_bind.
    eapply wp_mono;
      [apply (_set_active_board_seen_effect (i + 1) w s1); try lia;
       replace (i + 1 - 1) with i by lia; exact Hw|].
    intros [] s2 (Ha2 & Hb2 & _).
    eapply wp_mono; [apply _set_pwm_interval_all_zero_effect|].
    intros [] s3 (Ha3 & Hb3 & _).
    split; [congruence|]. rewrite Ha3, Ha2. lia. }
  assert (Hmiddle : forall s1, I1 s1 -> wp (body last) (fun _ => I2) s1).
  { intros s1 (Hb1 & Ha1). unfold body. apply wp_bind, wp_gets.
    apply wp_bind, (wp_index _ _ _ seen); [lia|rewrite Hb1; exact Hseen|].
    replace (seen >? 0) with true
      by (destruct (Z.gtb_spec seen 0); lia || reflexivity).
    apply wp_bind.
    eapply wp_mono;
      [apply (_set_active_board_seen_effect (last + 1) seen s1); try lia;
       replace (last + 1 - 1) with last by lia; rewrite Hb1; exact Hseen|].
    intros [] s2 (_ & Hb2 & _ & _ & _ & Hsel2).
    eapply wp_mono; [apply _set_pwm_interval_all_zero_effect|].
    intros [] s3 (_ & Hb3 & Hsel3 & _).
    split; [congruence|].
    rewrite Hsel3, (Hsel2 Ha1). simpl. f_equal. lia. }
  assert (Hsuffix : forall s1, I2 s1 ->
            wp (for_each (seqZ (last + 1) (61 - last)) body) (fun _ => I2) s1).
  { intros s1 HI2. apply (wp_for_each I2); [exact HI2|].
    intros j s2 Hj (Hb2 & Hsel2).
    apply list_elem_of_In, elem_of_seqZ in Hj.
    unfold body. apply wp_bind, wp_gets.
    destruct (lookup_lt_is_Some_2 (_pwm_boards s2) (Z.to_nat j))
      as [w Hw]; [rewrite Hb2, Hlen; lia|].
    apply wp_bind, (wp_index _ _ _ w); [lia|exact Hw|].
    rewrite Hb2 in Hw.
    assert (w <= 0) by (apply (Hhigher j w); [lia|exact Hw]).
    replace (w >? 0) with false
      by (destruct (Z.gtb_spec w 0); lia || reflexivity).
    apply wp_ret. split; assumption. }
  assert (H : wp stop_servos
                (fun _ s' =>
                   _active_board s' = _active_board s /\
                   head (slave_selections (trace s')) = Some (64 + last)) s).
  { unfold stop_servos. fold body. apply wp_bind, wp_gets. apply wp_bind.
    rewrite Hsplit. apply wp_for_each_app.
    eapply wp_mono; [exact Hprefix|].
    intros [] s1 HI1. apply wp_for_each_app.
    simpl. apply wp_bind.
    eapply wp_mono; [apply Hmiddle; exact HI1|].
    intros [] s2 HI2. apply wp_ret.
    eapply wp_mono; [apply Hsuffix; exact HI2|].
    intros [] s3 (_ & Hsel3). apply wp_modify.
    split; [reflexivity|exact Hsel3]. }
  destruct H as ([] & s' & Hrun & Ha' & Hsel').
  exists s'. repeat split; try assumption.
  intros Hvalid. apply _set_active_board_same; assumption.
Qed.

Lemma stop_servos_leaves_bus_on_last_board_witness :
  (length (_pwm_boards two_boards) = 62%nat /\
   0 <= 1 < 62 /\
   _pwm_boards two_boards !! Z.to_nat 1 = Some 1 /\
   0 < 1 /\
   (forall j w, 1 < j -> _pwm_boards two_boards !! Z.to_nat j = Some w -> w <= 0) /\
   _active_board two_boards <> 1 + 1) /\
  exists s',
    stop_servos two_boards = Ret tt s' /\
    _active_board s' = 1 /\
    head (slave_selections (trace s')) = Some 65.
Proof.
  assert (H1 : length (_pwm_boards two_boards) = 62%nat) by reflexivity.
  assert (H2 : 0 <= 1 < 62) by lia.
  assert (H3 : _pwm_boards two_boards !! Z.to_nat 1 = Some 1) by reflexivity.
  assert (H4 : 0 < 1) by lia.
  assert (H5 : forall j w, 1 < j ->
                 _pwm_boards two_boards !! Z.to_nat j = Some w -> w <= 0).
  { intros j w Hj Hw.
    change (_pwm_boards two_boards) with (1 :: 1 :: replicate 60 (-1)) in Hw.
    destruct (Z.to_nat j) as [|[|n]] eqn:Hn; [lia|lia|].
    change (replicate 60 (-1) !! n = Some w) in Hw.
    apply lookup_replicate in Hw. lia. }
  assert (H6 : _active_board two_boards <> 1 + 1) by (vm_compute; discriminate).
  split; [repeat (split; [assumption|]); assumption|].
  destruct (stop_servos_leaves_bus_on_last_board two_boards 1 1
              H1 H2 H3 H4 H5 H6) as (s' & Hrun & Ha & Hsel & _).
  exists s'. split; [exact Hrun|]. split; [exact Ha|exact Hsel].
Defined.

(** ** Runs of the proportional and drive topics that cannot go wrong *)

Lemma keeps_run {A} (m : M A) (a : A) (s s' : state) :
  keeps_globals m -> m s = Ret a s' -> same_globals s s'.
Proof. intros Hk Hrun. specialize (Hk s). rewrite Hrun in Hk. exact Hk. Qed.

Lemma wp_keeps {A} (m : M A) (s : state) :
  keeps_globals m -> wp m (fun _ _ => True) s ->
  wp m (fun _ s' => same_globals s s') s.
Proof.
  intros Hk (a & s' & Hrun & _). exists a, s'. split; [exact Hrun|].
  exact (keeps_run m a s s' Hk Hrun).
Qed.

Lemma _set_pwm_interval_returns (servo start end_ : Z) (s : state) :
  wp (_set_pwm_interval servo start end_) (fun _ _ => True) s.
Proof.
  unfold _set_pwm_interval. apply wp_bind, wp_gets.
  destruct ((_active_board s <? 1) || (_active_board s >? 62));
    [apply wp_log; exact I|].
  destruct ((servo <? 1) || (servo >? 16)); [apply wp_log; exact I|].
  cbv zeta. repeat (apply wp_bind, wp_write_or_report).
  apply wp_write_or_report. exact I.
Qed.

(** With the tables in shape, a valid active board and a servo number in
    1..16 the proportional command returns, whatever the value. *)
Lemma _set_pwm_interval_proportional_returns (servo value : Z) (s : state) :
  tables_ok s -> 1 <= _active_board s <= 62 -> 1 <= servo <= 16 ->
  wp (_set_pwm_interval_proportional servo value) (fun _ s' => same_globals s s') s.
Proof.
  intros Hok Hb Hs.
  apply wp_keeps; [apply keeps__set_pwm_interval_proportional|].
  unfold _set_pwm_interval_proportional. rewrite servo_guard_false.
  destruct ((value <? -1000) || (value >? 1000)); [apply wp_log; exact I|].
  apply wp_bind, wp_gets.
  destruct (tables_ok_lookup s (_active_board s - 1) (servo - 1) Hok)
    as (row & c & Hrow & Hc & _); [lia|lia|].
  apply wp_bind. exists c, s. split;
    [apply (servo_config_at_lookup s _ _ row c); assumption || lia|].
  destruct ((center c <? 0) || (range c <? 0)); [apply wp_log; exact I|].
  cbv zeta.
  destruct ((pos c value <? 0) || (pos c value >? 4096)); [apply wp_log; exact I|].
  apply wp_bind.
  eapply wp_mono; [apply _set_pwm_interval_returns|].
  intros [] s1 _. apply wp_log. exact I.
Qed.

Lemma same_globals_tables (s s' : state) :
  same_globals s s' -> tables_ok s -> tables_ok s'.
Proof.
  intros (Hc & Hb & _) (H1 & H2 & H3). unfold tables_ok.
  rewrite Hc, Hb. repeat split; assumption.
Qed.

Lemma same_globals_active (s s' : state) :
  same_globals s s' -> _active_board s' = _active_board s.
Proof. intros (_ & _ & _ & Ha & _). exact Ha. Qed.

(** X28.  With the tables in shape and a valid active board, a
    [servos_proportional] message whose servo numbers are all in 1..16 always
    returns (no read leaves the table), whatever the values, and leaves the
    globals as they were. *)
Theorem servos_proportional_returns (s : state) (servos : list Servo.t) :
  tables_ok s ->
  1 <= _active_board s <= 62 ->
  Forall (fun sp => 1 <= Servo.servo sp <= 16) servos ->
  exists s', servos_proportional servos s = Ret tt s' /\ same_globals s s'.
Proof.
  intros Hok Hb Hall. apply wp_unit. unfold servos_proportional.
  apply (wp_for_each (fun s1 => same_globals s s1)); [apply same_globals_refl|].
  intros sp s1 Hin Hs1. cbv zeta.
  eapply wp_mono.
  - apply _set_pwm_interval_proportional_returns.
    + exact (same_globals_tables s s1 Hs1 Hok).
    + rewrite (same_globals_active s s1 Hs1). exact Hb.
    + exact (proj1 (Forall_forall _ _) Hall sp (proj2 (list_elem_of_In _ _) Hin)).
  - intros [] s2 Hs2. exact (same_globals_trans s s1 s2 Hs1 Hs2).
Qed.

Lemma servos_proportional_returns_witness :
  tables_ok booted /\ 1 <= _active_board booted <= 62 /\
  Forall (fun sp => 1 <= Servo.servo sp <= 16)
         [Servo.mk 1 0; Servo.mk 16 5000] /\
  exists s',
    servos_proportional [Servo.mk 1 0; Servo.mk 16 5000] booted = Ret tt s' /\
    same_globals booted s'.
Proof.
  assert (H1 : tables_ok booted).
  { split; [reflexivity|]. split; [reflexivity|].
    change (_servo_configs booted) with (replicate 62 (replicate 16 unconfigured)).
    apply Forall_replicate. split; [reflexivity|].
    apply Forall_replicate. left. split; reflexivity. }
  assert (H2 : 1 <= _active_board booted <= 62) by (vm_compute; split; discriminate).
  assert (H3 : Forall (fun sp => 1 <= Servo.servo sp <= 16)
                      [Servo.mk 1 0; Servo.mk 16 5000])
    by (repeat constructor; simpl; lia).
  split; [exact H1|]. split; [exact H2|]. split; [exact H3|].
  exact (servos_proportional_returns booted _ H1 H2 H3).
Defined.

(** X29.  In mecanum mode, with the tables in shape and a valid active
    board, [servos_drive] always returns: all four speeds are written before
    the channels are visited, and every channel number the loop passes on is
    in 1..16. *)
Theorem servos_drive_mecanum_returns (s : state) (msg : geometry_msgs.Twist) :
  tables_ok s ->
  1 <= _active_board s <= 62 ->
  mode (_active_drive s) = MODE_MECANUM ->
  exists s', servos_drive msg s = Ret tt s' /\ same_globals s s'.
Proof.
  intros Hok Hb Hmode. apply wp_unit. unfold servos_drive.
  apply wp_bind, wp_gets. rewrite Hmode.
  change (MODE_MECANUM =? MODE_UNDEFINED) with false.
  change ((MODE_MECANUM <? MODE_UNDEFINED) || (MODE_MECANUM >=? MODE_INVALID))
    with false.
  cbv iota.
  destruct (twist_speeds MODE_MECANUM msg) as [speed line] eqn:Hspeeds.
  assert (Hspeed : exists v0 v1 v2 v3, speed = [Some v0; Some v1; Some v2; Some v3]).
  { pose proof (f_equal fst Hspeeds) as H. unfold twist_speeds in H.
    cbv zeta in H. rewrite mecanum_speeds in H. simpl in H.
    do 4 eexists. symmetry. exact H. }
  destruct Hspeed as (v0 & v1 & v2 & v3 & ->).
  apply wp_bind.
  apply (wp_mono _ (fun _ s1 => same_globals s s1)).
  { destruct line; [apply wp_log|apply wp_ret]; repeat split. }
  intros [] s0 Hs0.
  apply (wp_for_each (fun s1 => same_globals s s1)); [exact Hs0|].
  intros i s1 Hi Hs1.
  apply list_elem_of_In, elem_of_seqZ in Hi.
  assert (Hdrive : forall k v s2,
            same_globals s s2 ->
            [Some v0; Some v1; Some v2; Some v3] !! Z.to_nat k = Some (Some v) ->
            forall b : bool,
              wp (if b then drive_servo [Some v0; Some v1; Some v2; Some v3] i k
                  else ret tt)
                 (fun _ s3 => same_globals s s3) s2).
  { intros k v s2 Hs2 Hk [|]; [|apply wp_ret; exact Hs2].
    unfold drive_servo, initialised. rewrite Hk. apply wp_bind, wp_ret.
    eapply wp_mono.
    - apply _set_pwm_interval_proportional_returns.
      + exact (same_globals_tables s s2 Hs2 Hok).
      + rewrite (same_globals_active s s2 Hs2). exact Hb.
      + lia.
    - intros [] s3 Hs3. exact (same_globals_trans s s2 s3 Hs2 Hs3). }
  assert (Hread : forall s2 (k : servo_config -> M unit),
            same_globals s s2 ->
            (forall c, wp (k c) (fun _ s3 => same_globals s s3) s2) ->
            wp (c <- servo_config_at (_active_board s2 - 1) i;; k c)
               (fun _ s3 => same_globals s s3) s2).
  { intros s2 k Hs2 Hk.
    destruct (tables_ok_lookup s2 (_active_board s2 - 1) i
                (same_globals_tables s s2 Hs2 Hok))
      as (row & c & Hrow & Hc & _);
      [rewrite (same_globals_active s s2 Hs2); lia|lia|].
    apply wp_bind. exists c, s2. split; [|apply Hk].
    apply (servo_config_at_lookup s2 _ _ row c); try assumption; try lia.
    rewrite (same_globals_active s s2 Hs2). lia. }
  apply wp_bind, wp_gets.
  apply Hread; [exact Hs1|]. intros c0. apply wp_bind.
  eapply wp_mono; [apply (Hdrive 0 v0 s1 Hs1); reflexivity|].
  intros [] s2 Hs2.
  replace (_active_board s1) with (_active_board s2)
    by (rewrite (same_globals_active s s2 Hs2), (same_globals_active s s1 Hs1);
        reflexivity).
  apply Hread; [exact Hs2|]. intros c1. apply wp_bind.
  eapply wp_mono; [apply (Hdrive 1 v1 s2 Hs2); reflexivity|].
  intros [] s3 Hs3.
  replace (_active_board s2) with (_active_board s3)
    by (rewrite (same_globals_active s s3 Hs3), (same_globals_active s s2 Hs2);
        reflexivity).
  apply Hread; [exact Hs3|]. intros c2. apply wp_bind.
  eapply wp_mono; [apply (Hdrive 3 v3 s3 Hs3); reflexivity|].
  intros [] s4 Hs4.
  replace (_active_board s3) with (_active_board s4)
    by (rewrite (same_globals_active s s4 Hs4), (same_globals_active s s3 Hs3);
        reflexivity).
  apply Hread; [exact Hs4|]. intros c3.
  apply (Hdrive 2 v2 s4 Hs4). reflexivity.
Qed.

Lemma servos_drive_mecanum_returns_witness :
  tables_ok mecanum_robot /\ 1 <= _active_board mecanum_robot <= 62 /\
  mode (_active_drive mecanum_robot) = MODE_MECANUM /\
  exists s',
    servos_drive (twist 1000 0 0) mecanum_robot = Ret tt s' /\
    same_globals mecanum_robot s'.
Proof.
  assert (H1 : tables_ok mecanum_robot).
  { split; [reflexivity|]. split; [reflexivity|].
    change (_servo_configs mecanum_robot)
      with (<[0%nat := <[0%nat := mk_servo_config 336 96 1 1]>
                         (replicate 16 unconfigured)]>
              (replicate 62 (replicate 16 unconfigured))).
    apply Forall_insert;
      [apply Forall_replicate; split; [reflexivity|];
       apply Forall_replicate; left; split; reflexivity|].
    split; [reflexivity|].
    apply Forall_insert;
      [apply Forall_replicate; left; split; reflexivity|].
    right. vm_compute. intuition discriminate. }
  assert (H2 : 1 <= _active_board mecanum_robot <= 62)
    by (vm_compute; split; discriminate).
  assert (H3 : mode (_active_drive mecanum_robot) = MODE_MECANUM) by reflexivity.
  split; [exact H1|]. split; [exact H2|]. split; [exact H3|].
  exact (servos_drive_mecanum_returns mecanum_robot (twist 1000 0 0) H1 H2 H3).
Defined.



(** ** A drive position beyond those of the drive mode *)

Lemma for_each_undefined {A} (l1 l2 : list A) (a : A) (body : A -> M unit)
    (u : undefined_behaviour) (s s1 s2 : state) :
  for_each l1 body s = Ret tt s1 ->
  body a s1 = Undefined u s2 ->
  for_each (l1 ++ a :: l2) body s = Undefined u s2.
Proof.
  revert s. induction l1 as [|b l1 IH]; intros s Hl1 Ha; simpl in *.
  - injection Hl1 as <-. unfold bind. rewrite Ha. reflexivity.
  - unfold bind in *. destruct (body b s) as [[] s0|u0 s0]; [|discriminate].
    apply IH; assumption.
Qed.

(** X30.  In ackerman and differential mode [speed[3]] is never written.
    When the first drive channel of the active board is assigned the
    left-rear position (3), [servos_drive] reads that cell all the same:
    after logging the speeds its run is undefined, and no pulse has been
    written. *)
Theorem servos_drive_reads_unwritten_speed (s : state)
    (msg : geometry_msgs.Twist) (k : Z) (row : list servo_config) :
  mode (_active_drive s) = MODE_ACKERMAN \/
  mode (_active_drive s) = MODE_DIFFERENTIAL ->
  1 <= _active_board s ->
  _servo_configs s !! Z.to_nat (_active_board s - 1) = Some row ->
  0 <= k < 16 ->
  (exists c, row !! Z.to_nat k = Some c /\ mode_pos c = POSITION_LEFTREAR) ->
  (forall j, 0 <= j < k ->
     exists c, row !! Z.to_nat j = Some c /\
               (mode_pos c < POSITION_LEFTFRONT \/ POSITION_RIGHTREAR < mode_pos c)) ->
  exists line,
    snd (twist_speeds (mode (_active_drive s)) msg) = Some line /\
    servos_drive msg s
    = Undefined (Uninitialised "speed" 3) (emit (ROS_INFO line) s).
Proof.
  intros Hmode Hb Hrow Hk (ck & Hck & Hpos) Hbefore.
  assert (Hspeeds : exists v0 o1 line,
            twist_speeds (mode (_active_drive s)) msg
            = ([Some v0; o1; None; None], Some line)).
  { unfold twist_speeds. cbv zeta.
    destruct Hmode as [-> | ->]; unfold drive_speeds;
      cbn [Z.eqb MODE_ACKERMAN MODE_DIFFERENTIAL Pos.eqb].
    - do 3 eexists. reflexivity.
    - destruct (dir_of (geometry_msgs.z (geometry_msgs.angular msg)) <? 0);
        do 3 eexists; reflexivity. }
  destruct Hspeeds as (v0 & o1 & line & Hspeeds).
  exists line. split; [rewrite Hspeeds; reflexivity|].
  unfold servos_drive. unfold bind at 1, gets at 1.
  replace (mode (_active_drive s) =? MODE_UNDEFINED) with false
    by (destruct Hmode as [-> | ->]; reflexivity).
  replace ((mode (_active_drive s) <? MODE_UNDEFINED)
           || (mode (_active_drive s) >=? MODE_INVALID)) with false
    by (destruct Hmode as [-> | ->]; reflexivity).
  rewrite Hspeeds. unfold bind at 1, log at 1, modify at 1.
  set (s0 := emit (ROS_INFO line) s).
  set (speed := [Some v0; o1; None; None]).
  assert (Hread : forall i c (kont : servo_config -> M unit),
            0 <= i -> row !! Z.to_nat i = Some c ->
            (c' <- servo_config_at (_active_board s0 - 1) i;; kont c') s0
            = kont c s0).
  { intros i c kont Hi Hc. unfold bind.
    rewrite (servo_config_at_lookup s0 _ _ row c); try assumption;
      [reflexivity|simpl; lia]. }
  assert (Hsplit : seqZ 0 16 = seqZ 0 k ++ k :: seqZ (k + 1) (15 - k)).
  { replace 16 with (k + (16 - k)) at 1 by lia.
    rewrite seqZ_app by lia. f_equal.
    rewrite (seqZ_cons (0 + k)) by lia. simpl. f_equal. f_equal; lia. }
  rewrite Hsplit.
  apply (for_each_undefined _ _ _ _ _ _ s0).
  - assert (H : wp (for_each (seqZ 0 k)
                      (fun i =>
                         active <- gets _active_board;;
                         c <- servo_config_at (active - 1) i;;
                         (if mode_pos c =? POSITION_LEFTFRONT
                          then drive_servo speed i 0 else ret tt);;
                         c0 <- servo_config_at (active - 1) i;;
                         (if mode_pos c0 =? POSITION_RIGHTFRONT
                          then drive_servo speed i 1 else ret tt);;
                         c1 <- servo_config_at (active - 1) i;;
                         (if mode_pos c1 =? POSITION_LEFTREAR
                          then drive_servo speed i 3 else ret tt);;
                         c2 <- servo_config_at (active - 1) i;;
                         (if mode_pos c2 =? POSITION_RIGHTREAR
                          then drive_servo speed i 2 else ret tt)))
                   (fun _ s1 => s1 = s0) s0).
    { apply (wp_for_each (fun s1 => s1 = s0)); [reflexivity|].
      intros j s1 Hj ->. apply list_elem_of_In, elem_of_seqZ in Hj.
      destruct (Hbefore j) as (c & Hc & Hnone); [lia|].
      assert (H1 : (mode_pos c =? POSITION_LEFTFRONT) = false)
        by (apply Z.eqb_neq; unfold POSITION_LEFTFRONT, POSITION_RIGHTREAR in *; lia).
      assert (H2 : (mode_pos c =? POSITION_RIGHTFRONT) = false)
        by (apply Z.eqb_neq;
            unfold POSITION_LEFTFRONT, POSITION_RIGHTFRONT, POSITION_RIGHTREAR in *; lia).
      assert (H3 : (mode_pos c =? POSITION_LEFTREAR) = false)
        by (apply Z.eqb_neq;
            unfold POSITION_LEFTFRONT, POSITION_LEFTREAR, POSITION_RIGHTREAR in *; lia).
      assert (H4 : (mode_pos c =? POSITION_RIGHTREAR) = false)
        by (apply Z.eqb_neq; unfold POSITION_LEFTFRONT, POSITION_RIGHTREAR in *; lia).
      exists tt, s0. split; [|reflexivity].
      unfold bind at 1, gets at 1.
      rewrite (Hread j c) by (lia || assumption). rewrite H1.
      unfold bind at 1, ret at 1.
      rewrite (Hread j c) by (lia || assumption). rewrite H2.
      unfold bind at 1, ret at 1.
      rewrite (Hread j c) by (lia || assumption). rewrite H3.
      unfold bind at 1, ret at 1.
      rewrite (Hread j c) by (lia || assumption). rewrite H4.
      reflexivity. }
    destruct H as ([] & s1 & Hrun & ->). exact Hrun.
  - unfold bind at 1, gets at 1.
    rewrite (Hread k ck) by (lia || assumption).
    rewrite Hpos. change (POSITION_LEFTREAR =? POSITION_LEFTFRONT) with false.
    unfold bind at 1, ret at 1.
    rewrite (Hread k ck) by (lia || assumption).
    rewrite Hpos. change (POSITION_LEFTREAR =? POSITION_RIGHTFRONT) with false.
    unfold bind at 1, ret at 1.
    rewrite (Hread k ck) by (lia || assumption).
    rewrite Hpos. change (POSITION_LEFTREAR =? POSITION_LEFTREAR) with true.
    reflexivity.
Qed.

Lemma servos_drive_reads_unwritten_speed_witness :
  let row := <[0%nat := mk_servo_config 336 96 1 3]> (replicate 16 unconfigured) in
  ((mode (_active_drive misassigned_robot) = MODE_ACKERMAN \/
    mode (_active_drive misassigned_robot) = MODE_DIFFERENTIAL) /\
   1 <= _active_board misassigned_robot /\
   _servo_configs misassigned_robot
     !! Z.to_nat (_active_board misassigned_robot - 1) = Some row /\
   0 <= 0 < 16 /\
   (exists c, row !! Z.to_nat 0 = Some c /\ mode_pos c = POSITION_LEFTREAR) /\
   (forall j, 0 <= j < 0 ->
      exists c, row !! Z.to_nat j = Some c /\
                (mode_pos c < POSITION_LEFTFRONT \/ POSITION_RIGHTREAR < mode_pos c))) /\
  servos_drive (twist 1000 0 0) misassigned_robot
  = Undefined (Uninitialised "speed" 3)
      (emit (ROS_INFO (Differential_speed (Some 1000) (Some 1000)))
         misassigned_robot).
Proof.
  intros row.
  assert (H1 : mode (_active_drive misassigned_robot) = MODE_ACKERMAN \/
               mode (_active_drive misassigned_robot) = MODE_DIFFERENTIAL)
    by (right; reflexivity).
  assert (H2 : 1 <= _active_board misassigned_robot) by (vm_compute; discriminate).
  assert (H3 : _servo_configs misassigned_robot
                 !! Z.to_nat (_active_board misassigned_robot - 1) = Some row)
    by reflexivity.
  assert (H4 : 0 <= 0 < 16) by lia.
  assert (H5 : exists c, row !! Z.to_nat 0 = Some c /\ mode_pos c = POSITION_LEFTREAR)
    by (eexists; split; reflexivity).
  assert (H6 : forall j, 0 <= j < 0 ->
                 exists c, row !! Z.to_nat j = Some c /\
                           (mode_pos c < POSITION_LEFTFRONT
                            \/ POSITION_RIGHTREAR < mode_pos c))
    by (intros j Hj; lia).
  split; [repeat (split; [assumption|]); assumption|].
  destruct (servos_drive_reads_unwritten_speed misassigned_robot
              (twist 1000 0 0) 0 row H1 H2 H3 H4 H5 H6) as (line & Hline & Hrun).
  vm_compute in Hline. injection Hline as <-. exact Hrun.
Defined.
